(** * LMArenaBridge: the character-limit finder, [find_char_limit.py]

    A shallow embedding of the script that looks for the longest prompt
    the chat-completion endpoint accepts, and the properties of its prompt
    generator, its probe and its two-phase search.

    Python integers are [Z] (unbounded; [//] and [%] are [Z.div] and
    [Z.modulo], both rounding towards minus infinity). Python strings are
    [string], one [ascii] per character. The [print] calls are left out:
    nothing the script computes depends on them. *)

From Stdlib Require Import ZArith String Ascii List Bool Lia DecimalString.
Import ListNotations.

Local Open Scope string_scope.
Local Open Scope Z_scope.

(** ** Python strings *)

Module PyStr.

(** [len(s)] *)
Definition len (s : string) : Z := Z.of_nat (String.length s).

Fixpoint repeat (s : string) (n : nat) : string :=
  match n with
  | O => EmptyString
  | S k => s ++ repeat s k
  end.

(** [s * n]: the empty string when [n <= 0]. *)
Definition mul (s : string) (n : Z) : string := repeat s (Z.to_nat n).

(** [s[:n]]: a negative [n] counts from the end. *)
Definition slice_to (s : string) (n : Z) : string :=
  substring 0 (Z.to_nat (if n <? 0 then len s + n else n)) s.

(** [str(n)] and [f"{n}"] for an integer. *)
Definition of_int (n : Z) : string := NilZero.string_of_int (Z.to_int n).

Definition chars (s : string) : list ascii := list_ascii_of_string s.

End PyStr.

(** ** The prompt generator (lines 49-58) *)

Definition base_text : string := "abcdefghijklmnopqrstuvwxyz0123456789 ".

Definition generate_test_prompt (length : Z) : string :=
  let repeat_count := length / PyStr.len base_text in
  let remainder := length mod PyStr.len base_text in
  PyStr.mul base_text repeat_count ++ PyStr.slice_to base_text remainder.

(** What "built by repeating a cycle of [n] characters and truncating the
    last repetition" says of a generator [gen]: there is a cycle of [n]
    characters such that [gen L] has [L] characters, all of them in the
    cycle, the one at position [k] being the one at position [k mod n] of
    the cycle. *)
Definition repeats_cycle_of (n : nat) (gen : Z -> string) : Prop :=
  exists cycle : string,
    String.length cycle = n /\
    forall L : Z, 0 <= L ->
      PyStr.len (gen L) = L /\
      Forall (fun c => In c (PyStr.chars cycle)) (PyStr.chars (gen L)) /\
      forall k : nat, Z.of_nat k < L ->
        String.get k (gen L) = String.get (k mod n) cycle.

(** ** JSON values and the Python operations the probe applies to them *)

(** A value as [response.json()] returns it. A [JDict] lists the items of
    the Python dict, every key once. *)
#[local] Unset Elimination Schemes.
Inductive Json : Type :=
| JNull
| JBool (b : bool)
| JInt (n : Z)
| JFloat (literal : string)
| JStr (s : string)
| JList (items : list Json)
| JDict (items : list (string * Json)).
#[local] Set Elimination Schemes.

(** ** Responses and exceptions *)

(** What the probe reads of an [httpx.Response]: [json] is what
    [response.json()] does, [inl msg] standing for a [JSONDecodeError]
    whose [str] is [msg]. *)
Record Response : Type := {
  status_code : Z;
  text : string;
  json : string + Json
}.

(** A raised exception, by the [except] clause that takes it.
    [ExOther] is any other instance of [Exception]; [ExBase] is an
    exception outside [Exception] ([KeyboardInterrupt],
    [asyncio.CancelledError], [SystemExit]). *)
Inductive Exn : Type :=
| ExTimeout (type_name msg : string)
| ExHTTPStatus (response : Response) (msg : string)
| ExOther (type_name msg : string)
| ExBase (type_name msg : string).

Definition is_Exception (e : Exn) : bool :=
  match e with
  | ExBase _ _ => false
  | _ => true
  end.

Module Py.

Definition AttributeError (msg : string) : Exn := ExOther "AttributeError" msg.
Definition IndexError (msg : string) : Exn := ExOther "IndexError" msg.
Definition KeyError (msg : string) : Exn := ExOther "KeyError" msg.
Definition TypeError (msg : string) : Exn := ExOther "TypeError" msg.
Definition JSONDecodeError (msg : string) : Exn := ExOther "JSONDecodeError" msg.

(** [type(v).__name__] *)
Definition type_name (v : Json) : string :=
  match v with
  | JNull => "NoneType"
  | JBool _ => "bool"
  | JInt _ => "int"
  | JFloat _ => "float"
  | JStr _ => "str"
  | JList _ => "list"
  | JDict _ => "dict"
  end.

Fixpoint lookup (key : string) (items : list (string * Json)) : option Json :=
  match items with
  | [] => None
  | (k, v) :: rest => if String.eqb k key then Some v else lookup key rest
  end.

(** [v.get(key, default)]: only a dict has the method. *)
Definition get (v : Json) (key : string) (default : Json) : Exn + Json :=
  match v with
  | JDict items =>
      inr (match lookup key items with Some x => x | None => default end)
  | _ =>
      inl (AttributeError ("'" ++ type_name v ++ "' object has no attribute 'get'"))
  end.

(** [v[0]]. The keys of a parsed JSON object are strings, so [0] is never
    one of them. *)
Definition item0 (v : Json) : Exn + Json :=
  match v with
  | JList (x :: _) => inr x
  | JList [] => inl (IndexError "list index out of range")
  | JStr (String c _) => inr (JStr (String c EmptyString))
  | JStr EmptyString => inl (IndexError "string index out of range")
  | JDict _ => inl (KeyError "0")
  | _ => inl (TypeError ("'" ++ type_name v ++ "' object is not subscriptable"))
  end.

(** [len(v)] *)
Definition len (v : Json) : Exn + Z :=
  match v with
  | JStr s => inr (PyStr.len s)
  | JList items => inr (Z.of_nat (List.length items))
  | JDict items => inr (Z.of_nat (List.length items))
  | _ => inl (TypeError ("object of type '" ++ type_name v ++ "' has no len()"))
  end.

(** [bool(x)] of an optional integer: [None] and [0] are false. *)
Definition truthy (x : option Z) : bool :=
  match x with
  | Some n => negb (n =? 0)
  | None => false
  end.

End Py.

(** Sequencing of expressions that may raise. *)
Definition ebind {A B : Type} (m : Exn + A) (k : A -> Exn + B) : Exn + B :=
  match m with
  | inl e => inl e
  | inr a => k a
  end.

Notation "'let?' x ':=' m 'in' k" := (ebind m (fun x => k))
  (at level 10, x name, m at level 100, k at level 200).

(** An expression that raises nothing but an [Exception] of the kind the
    last clause takes. *)
Definition raises_only_Exception {A : Type} (m : Exn + A) : Prop :=
  forall e, m = inl e -> exists type_name msg, e = ExOther type_name msg.

(** ** The request *)

Record Message : Type := { role : string; content : string }.

Record Payload : Type := {
  model : string;
  messages : list Message;
  stream : bool
}.

Record Request : Type := {
  url : string;
  json_payload : Payload;
  headers : list (string * string)
}.

(** What [await client.post(...)] does: it returns a response or raises. *)
Inductive PostOutcome : Type :=
| Returned (response : Response)
| Raised (e : Exn).

Definition BASE_URL : string := "http://localhost:8000/api/v1/chat/completions".
Definition MODEL : string := "claude-sonnet-4-5-20250929-thinking-32k".

Definition STARTING_LENGTH : Z := 500000.
Definition STEP_SIZE : Z := 10000.
Definition MIN_LENGTH : Z := 1000.

(** ** The probe's verdict (lines 88-121) *)

(** The logged part of the 200 branch, lines 99-101: the length of the
    first choice's message content. *)
Definition response_text_len (response : Response) : Exn + Z :=
  let? result := match json response with
                 | inl msg => inl (Py.JSONDecodeError msg)
                 | inr v => inr v
                 end in
  let? choices := Py.get result "choices" (JList [JDict []]) in
  let? choice := Py.item0 choices in
  let? message := Py.get choice "message" (JDict []) in
  let? response_text := Py.get message "content" (JStr EmptyString) in
  Py.len response_text.

(** The body of the [try], from the outcome of the [post] on. *)
Definition try_body (outcome : PostOutcome) : Exn + (bool * option string) :=
  match outcome with
  | Raised e => inl e
  | Returned response =>
      if status_code response =? 200 then
        let? n := response_text_len response in
        inr (true, None)
      else
        let error_msg :=
          "Status " ++ PyStr.of_int (status_code response) ++ ": "
          ++ PyStr.slice_to (text response) 200 in
        inr (false, Some error_msg)
  end.

(** The [except] clauses, in their order; an exception none of them takes
    goes on to the caller. *)
Definition except_clauses (timeout : Z) (e : Exn) : Exn + (bool * option string) :=
  match e with
  | ExTimeout _ _ =>
      inr (false, Some ("Request timed out after " ++ PyStr.of_int timeout ++ "s"))
  | ExHTTPStatus response _ =>
      inr (false, Some ("HTTP error " ++ PyStr.of_int (status_code response) ++ ": "
                        ++ PyStr.slice_to (text response) 200))
  | ExOther type_name msg =>
      inr (false, Some ("Unexpected error: " ++ type_name ++ ": " ++ msg))
  | ExBase _ _ => inl e
  end.

Definition classify (timeout : Z) (outcome : PostOutcome)
  : Exn + (bool * option string) :=
  match try_body outcome with
  | inr r => inr r
  | inl e => except_clauses timeout e
  end.

(** An outcome the endpoint or the transport produces: a response, or an
    exception that is an [Exception]. *)
Definition transport_outcome (outcome : PostOutcome) : Prop :=
  match outcome with
  | Returned _ => True
  | Raised e => is_Exception e = true
  end.

(** ** The run: outcomes, state and trace *)

(** What a run leaves behind, in order: a probe that returned with its
    verdict, an [asyncio.sleep], an entry into [binary_search]. *)
Inductive Event : Type :=
| EvProbe (length : Z) (success : bool)
| EvSleep (seconds : Z)
| EvBinarySearch (min_len max_len step : Z).

(** The result of a call: a value, an exception that leaves the function,
    or [OutOfFuel] when a loop was cut before its test turned false. *)
Inductive Outcome (A : Type) : Type :=
| Ret (a : A)
| Raise (e : Exn)
| OutOfFuel.

Arguments Ret {A} a.
Arguments Raise {A} e.
Arguments OutOfFuel {A}.

Section Model.

(** The endpoint and the clock are the environment: [post w request timeout]
    is what the [post] does in the world [w], [wait w seconds] the world
    after a sleep. [API_KEY] is the module variable that [load_config]
    may set before the search starts. *)
Context {W : Type}.
Variable post : W -> Request -> Z -> PostOutcome * W.
Variable wait : W -> Z -> W.
Variable API_KEY : string.

Record State : Type := { world : W; trace : list Event }.

Definition M (A : Type) : Type := State -> Outcome A * State.

Definition ret {A : Type} (a : A) : M A := fun s => (Ret a, s).

Definition bind {A B : Type} (m : M A) (k : A -> M B) : M B :=
  fun s =>
    match m s with
    | (Ret a, s') => k a s'
    | (Raise e, s') => (Raise e, s')
    | (OutOfFuel, s') => (OutOfFuel, s')
    end.

Definition out_of_fuel {A : Type} : M A := fun s => (OutOfFuel, s).

Definition raise {A : Type} (e : Exn) : M A := fun s => (Raise e, s).

Definition emit (ev : Event) : M unit :=
  fun s => (Ret tt, {| world := world s; trace := trace s ++ [ev] |}).

(** [await asyncio.sleep(seconds)] *)
Definition sleep (seconds : Z) : M unit :=
  fun s => (Ret tt, {| world := wait (world s) seconds;
                       trace := trace s ++ [EvSleep seconds] |}).

Local Notation "x <- m ;; k" := (bind m (fun x => k))
  (at level 61, m at next level, right associativity).

(** ** The probe (lines 60-121) *)

Definition request_for (length : Z) : Request :=
  let prompt := generate_test_prompt length in
  {| url := BASE_URL;
     json_payload := {| model := MODEL;
                        messages := [ {| role := "user"; content := prompt |} ];
                        stream := false |};
     headers := [ ("Authorization", "Bearer " ++ API_KEY);
                  ("Content-Type", "application/json") ] |}.

Definition test_request (length : Z) (timeout : Z) : M (bool * option string) :=
  fun s =>
    let (outcome, w) := post (world s) (request_for length) timeout in
    match classify timeout outcome with
    | inr (success, error_msg) =>
        (Ret (success, error_msg),
         {| world := w; trace := trace s ++ [EvProbe length success] |})
    | inl e => (Raise e, {| world := w; trace := trace s |})
    end.

(** ** Phase 2: [binary_search] (lines 123-148) *)

Record BsVars : Type := { min_len : Z; max_len : Z; last_success : Z }.

(** One turn of the [while] at lines 134-146. *)
Definition bs_body (v : BsVars) : M BsVars :=
  let mid := (min_len v + max_len v) / 2 in
  r <- test_request mid 60 ;;
  let v' :=
    if fst r
    then {| min_len := mid + 1; max_len := max_len v; last_success := mid |}
    else {| min_len := min_len v; max_len := mid - 1;
            last_success := last_success v |} in
  _ <- sleep 2 ;;
  ret v'.

Fixpoint bs_loop (fuel : nat) (step : Z) (v : BsVars) : M BsVars :=
  if max_len v - min_len v >? step then
    match fuel with
    | O => out_of_fuel
    | S fuel' => v' <- bs_body v ;; bs_loop fuel' step v'
    end
  else ret v.

Definition binary_search (fuel : nat) (min_len max_len step : Z) : M Z :=
  _ <- emit (EvBinarySearch min_len max_len step) ;;
  v <- bs_loop fuel step
         {| min_len := min_len; max_len := max_len; last_success := min_len |} ;;
  ret (last_success v).

(** ** Phase 1 and the report: [find_char_limit] (lines 150-225) *)

Record P1Vars : Type := {
  current_length : Z;
  last_success_length : option Z;
  first_failure_length : option Z
}.

(** One turn of the [while] at lines 181-193; the boolean says whether the
    turn left the loop by [break]. *)
Definition p1_body (step_size : Z) (v : P1Vars) : M (P1Vars * bool) :=
  r <- test_request (current_length v) 60 ;;
  if fst r then
    ret ({| current_length := current_length v;
            last_success_length := Some (current_length v);
            first_failure_length := first_failure_length v |}, true)
  else
    let v' := {| current_length := current_length v - step_size;
                 last_success_length := last_success_length v;
                 first_failure_length := Some (current_length v) |} in
    _ <- sleep 2 ;;
    ret (v', false).

Fixpoint p1_loop (fuel : nat) (step_size min_length : Z) (v : P1Vars)
  : M P1Vars :=
  if current_length v >=? min_length then
    match fuel with
    | O => out_of_fuel
    | S fuel' =>
        r <- p1_body step_size v ;;
        if snd r then ret (fst r) else p1_loop fuel' step_size min_length (fst r)
    end
  else ret v.

Definition phase1 (fuel : nat) (starting_length step_size min_length : Z)
  : M P1Vars :=
  p1_loop fuel step_size min_length
    {| current_length := starting_length;
       last_success_length := None;
       first_failure_length := None |}.

(** What the script prints at its end: that every length failed (line
    196), or the results (lines 216-221), the first failure when it is
    truthy. *)
Inductive Report : Type :=
| AllFailed (min_length : Z)
| Results (maximum_working : Z) (first_failure : option Z).

(** [find_char_limit] from line 171 on, the three constants being
    arguments; the function with its first lines is defined once
    [load_config] is, below. *)
Definition find_char_limit_with (starting_length step_size min_length : Z)
  (fuel : nat) : M Report :=
  v <- phase1 fuel starting_length step_size min_length ;;
  match last_success_length v with
  | None => ret (AllFailed min_length)
  | Some good =>
      last <- match first_failure_length v with
              | Some bad =>
                  if Py.truthy (Some bad) && Py.truthy (Some good)
                  then binary_search fuel good bad 500
                  else ret good
              | None => ret good
              end ;;
      ret (Results last (if Py.truthy (first_failure_length v)
                         then first_failure_length v else None))
  end.

End Model.

Arguments State W : clear implicits.
Arguments M W A : clear implicits.

(** ** What a trace says of the environment *)

Section Replay.

Context {W : Type}.
Variable post : W -> Request -> Z -> PostOutcome * W.
Variable wait : W -> Z -> W.
Variable API_KEY : string.

(** [happened s evs s'] replays the events [evs] on the environment from
    the state [s]: every probe of [evs] is a call of [test_request] at
    the length the event gives, made in the state reached so far, which
    returned the verdict the event gives; every sleep is slept; and [s']
    is the state after the last event. A trace that [happened] holds
    nothing the endpoint did not answer. *)
Inductive happened : State W -> list Event -> State W -> Prop :=
| happened_nothing (s : State W) : happened s [] s
| happened_probe (s s1 s' : State W) (length : Z) (success : bool)
    (error_msg : option string) (evs : list Event) :
    test_request post API_KEY length 60 s = (Ret (success, error_msg), s1) ->
    happened s1 evs s' ->
    happened s (EvProbe length success :: evs) s'
| happened_sleep (s s' : State W) (seconds : Z) (evs : list Event) :
    happened (snd (sleep wait seconds s)) evs s' ->
    happened s (EvSleep seconds :: evs) s'
| happened_binary_search (s s' : State W) (lo hi step : Z) (evs : list Event) :
    happened (snd (emit (EvBinarySearch lo hi step) s)) evs s' ->
    happened s (EvBinarySearch lo hi step :: evs) s'.

End Replay.

(** ** Environments *)

(** An environment whose [post] raises nothing outside [Exception]. *)
Definition well_behaved {W : Type} (post : W -> Request -> Z -> PostOutcome * W)
  : Prop :=
  forall w request timeout, transport_outcome (fst (post w request timeout)).

Definition prompt_len (request : Request) : Z :=
  fold_right (fun m n => PyStr.len (content m) + n) 0
             (messages (json_payload request)).

Definition ok_response : Response :=
  {| status_code := 200;
     text := "{'choices':[{'message':{'role':'assistant','content':'ok'}}]}";
     json := inr (JDict [("choices",
               JList [JDict [("message",
                 JDict [("role", JStr "assistant"); ("content", JStr "ok")])]])]) |}.

Definition too_large_response : Response :=
  {| status_code := 413;
     text := "Payload Too Large";
     json := inl "Expecting value: line 1 column 1 (char 0)" |}.

Definition too_many_response : Response :=
  {| status_code := 429;
     text := "Too Many Requests";
     json := inl "Expecting value: line 1 column 1 (char 0)" |}.

(** An endpoint that accepts the prompts of at most [limit] characters and
    no other, and keeps no state. *)
Definition threshold_post (limit : Z) (w : unit) (request : Request) (timeout : Z)
  : PostOutcome * unit :=
  (Returned (if prompt_len request <=? limit
             then ok_response else too_large_response), w).

Definition no_wait (w : unit) (seconds : Z) : unit := w.

(** An endpoint that plays a list of outcomes, one per request, whatever
    the request; once the list is used up the connection fails. *)
Definition scripted_post (w : list PostOutcome) (request : Request) (timeout : Z)
  : PostOutcome * list PostOutcome :=
  match w with
  | outcome :: rest => (outcome, rest)
  | [] => (Raised (ExOther "ConnectError" "All connection attempts failed"), [])
  end.

Definition scripted_wait (w : list PostOutcome) (seconds : Z) : list PostOutcome := w.

(** An endpoint with a rate limit: the world is the clock and the time of
    the last request; a request less than [2] seconds after the one
    before is answered 429, any other as [threshold_post] does. *)
Record Limited : Type := { clock : Z; last_request : option Z }.

Definition limited_post (limit : Z) (w : Limited) (request : Request) (timeout : Z)
  : PostOutcome * Limited :=
  let too_soon :=
    match last_request w with
    | Some t => clock w - t <? 2
    | None => false
    end in
  (Returned (if too_soon then too_many_response
             else if prompt_len request <=? limit
                  then ok_response else too_large_response),
   {| clock := clock w; last_request := Some (clock w) |}).

Definition limited_wait (w : Limited) (seconds : Z) : Limited :=
  {| clock := clock w + seconds; last_request := last_request w |}.

(** ** Properties of states and traces *)

Definition verdict (r : Outcome (bool * option string)) : option bool :=
  match r with
  | Ret (success, _) => Some success
  | _ => None
  end.

Section Oracle.

Context {W : Type}.
Variable post : W -> Request -> Z -> PostOutcome * W.
Variable API_KEY : string.

(** The endpoint has a true limit: a probe succeeds exactly at the lengths
    up to [limit]. *)
Definition monotone_oracle (limit : Z) : Prop :=
  forall (length : Z) (s : State W),
    verdict (fst (test_request post API_KEY length 60 s))
    = Some (length <=? limit).

End Oracle.

(** [good <= true limit < bad] *)
Definition straddles (limit good bad : Z) : Prop := good <= limit < bad.

(** The invariant of the specification on the bounds of phase 1, whenever
    both are defined. *)
Definition bounds_straddle (limit : Z) (v : P1Vars) : Prop :=
  forall good bad,
    last_success_length v = Some good -> first_failure_length v = Some bad ->
    straddles limit good bad.

(** What phase 1 knows of each bound on its own. *)
Definition p1_inv (limit : Z) (v : P1Vars) : Prop :=
  (forall good, last_success_length v = Some good -> good <= limit) /\
  (forall bad, first_failure_length v = Some bad -> limit < bad).

(** What phase 2 keeps: [last_success] is a working length, [min_len] is
    at most one above the limit and [max_len] is not below it. *)
Definition bs_inv (limit : Z) (v : BsVars) : Prop :=
  last_success v <= limit /\ min_len v <= limit + 1 /\ limit <= max_len v.

(** The length of the last probe of [evs] that succeeded, [default] when
    there is none. *)
Fixpoint last_good (evs : list Event) (default : Z) : Z :=
  match evs with
  | [] => default
  | EvProbe length true :: rest => last_good rest length
  | _ :: rest => last_good rest default
  end.

(** The events of [n] failed probes in a row from [start] down, [step]
    apart, each with its sleep. *)
Definition descent (start step : Z) (n : nat) : list Event :=
  flat_map (fun k => [EvProbe (start - Z.of_nat k * step) false; EvSleep 2])
           (seq 0 n).

Definition is_binary_search (ev : Event) : bool :=
  match ev with
  | EvBinarySearch _ _ _ => true
  | _ => false
  end.

Definition phase2_entered (tr : list Event) : bool := existsb is_binary_search tr.

(** Every probe of the trace is followed at once by a sleep. *)
Fixpoint delay_after_every_probe (tr : list Event) : bool :=
  match tr with
  | [] => true
  | EvProbe _ _ :: rest =>
      match rest with
      | EvSleep _ :: _ => delay_after_every_probe rest
      | _ => false
      end
  | _ :: rest => delay_after_every_probe rest
  end.

(** The weaker reading: a sleep lies between any two probes, [pending]
    saying that a probe was seen and no sleep since. *)
Fixpoint delay_between_probes (pending : bool) (tr : list Event) : bool :=
  match tr with
  | [] => true
  | EvProbe _ _ :: rest => negb pending && delay_between_probes true rest
  | EvSleep _ :: rest => delay_between_probes false rest
  | EvBinarySearch _ _ _ :: rest => delay_between_probes pending rest
  end.

(** The variables after a turn of the loop of [binary_search], by the
    verdict of its probe. *)
Definition bs_mid (v : BsVars) : Z := (min_len v + max_len v) / 2.

Definition bs_next (v : BsVars) (success : bool) : BsVars :=
  if success
  then {| min_len := bs_mid v + 1; max_len := max_len v; last_success := bs_mid v |}
  else {| min_len := min_len v; max_len := bs_mid v - 1;
          last_success := last_success v |}.

(** The variables after a turn of the loop of phase 1 that did not leave
    it. *)
Definition p1_next (step_size : Z) (v : P1Vars) : P1Vars :=
  {| current_length := current_length v - step_size;
     last_success_length := last_success_length v;
     first_failure_length := Some (current_length v) |}.

Definition p1_found (v : P1Vars) : P1Vars :=
  {| current_length := current_length v;
     last_success_length := Some (current_length v);
     first_failure_length := first_failure_length v |}.

(** The state after the sleep that follows a probe. *)
Definition slept {W : Type} (wait : W -> Z -> W) (s : State W) : State W :=
  {| world := wait (world s) 2; trace := trace s ++ [EvSleep 2] |}.

(** A key for the examples; the verdicts do not depend on it. *)
Definition example_key : string := "sk-example".

Definition start_of_run {W : Type} (w : W) : State W :=
  {| world := w; trace := [] |}.

(** The bounds phase 1 hands to phase 2 on the constants of the script
    when 500000 fails and 490000 works. *)
Definition entry_495000 : BsVars :=
  {| min_len := 490000; max_len := 500000; last_success := 490000 |}.

(** The two readings of the bisection of the specification, on one turn
    of the loop of [binary_search]. *)
Section Readings.

Context {W : Type}.
Variable post : W -> Request -> Z -> PostOutcome * W.
Variable wait : W -> Z -> W.
Variable API_KEY : string.

(** "On success the lower bound is set to the midpoint, on failure the
    upper bound is", for the turns the loop takes with the resolution
    [step]. *)
Definition bounds_move_to_midpoint (step : Z) : Prop :=
  forall (v v' : BsVars) (s s' : State W) (success : bool),
    let mid := (min_len v + max_len v) / 2 in
    max_len v - min_len v > step ->
    verdict (fst (test_request post API_KEY mid 60 s)) = Some success ->
    bs_body post wait API_KEY v s = (Ret v', s') ->
    if success then min_len v' = mid else max_len v' = mid.

(** "Every update keeps [knownGoodLength <= true limit < knownBadLength]",
    the bounds being the two the loop narrows. *)
Definition bisection_keeps_straddle (step : Z) : Prop :=
  forall limit : Z,
    monotone_oracle post API_KEY limit ->
    forall (v v' : BsVars) (s s' : State W),
      max_len v - min_len v > step ->
      straddles limit (min_len v) (max_len v) ->
      bs_body post wait API_KEY v s = (Ret v', s') ->
      straddles limit (min_len v') (max_len v').

End Readings.

(** ** Measures of a run *)

(** The lengths probed, in their order. *)
Fixpoint probed (tr : list Event) : list Z :=
  match tr with
  | [] => []
  | EvProbe length _ :: rest => length :: probed rest
  | _ :: rest => probed rest
  end.

(** The last length phase 1 can test: the lowest
    [starting_length - k * step_size] that is not below [min_length]. *)
Definition lowest_tested (starting_length step_size min_length : Z) : Z :=
  starting_length - (starting_length - min_length) / step_size * step_size.

(** Every probe returns, with a verdict: what a well-behaved environment
    gives, and what an endpoint with a true limit gives. *)
Definition probes_return {W : Type} (post : W -> Request -> Z -> PostOutcome * W)
  (API_KEY : string) : Prop :=
  forall (length : Z) (s : State W),
    exists success error_msg s1,
      test_request post API_KEY length 60 s = (Ret (success, error_msg), s1).

(** What the bisection keeps under a true limit, with the distance
    between [min_len] and the answer so far. *)
Definition bs_tight (limit : Z) (v : BsVars) : Prop :=
  last_success v <= limit /\ limit <= max_len v /\
  min_len v <= last_success v + 1.

(** ** [load_config] (lines 23-47) *)

(** What [open] and [json.load] make of a file: it is not there, some
    other exception of class [type_name] comes up, the text is no JSON, or
    a value is read. *)
Inductive FileRead : Type :=
| FileNotFound
| FileError (type_name : string)
| FileInvalid (msg : string)
| FileJson (v : Json).

(** What the model check of [load_config] prints. *)
Inductive ModelCheck : Type :=
| UsingModel
| ModelNotFound (available : string)
| CouldNotLoadModels.

Definition class_of (e : Exn) : string :=
  match e with
  | ExTimeout type_name _ => type_name
  | ExHTTPStatus _ _ => "HTTPStatusError"
  | ExOther type_name _ => type_name
  | ExBase type_name _ => type_name
  end.

(** An expression of [load_config] that may raise: the class of the
    exception is kept, its message is not. *)
Definition classed {A : Type} (m : Exn + A) : string + A :=
  match m with
  | inl e => inl (class_of e)
  | inr a => inr a
  end.

Definition cbind {A B : Type} (m : string + A) (k : A -> string + B) : string + B :=
  match m with
  | inl cls => inl cls
  | inr a => k a
  end.

Notation "'let!' x ':=' m 'in' k" := (cbind m (fun x => k))
  (at level 10, x name, m at level 100, k at level 200).

Section Startup.

(** Three things of Python are taken as given: which float literals read
    as zero, the class of the exception that slicing a dict raises
    ([TypeError] before Python 3.12, [KeyError] from 3.12 on), and the
    text [str] gives for a value that is no string. *)
Variable float_is_zero : string -> bool.
Variable slice_of_dict_error : string.
Variable str_of_other : Json -> string.

(** [bool(v)] *)
Definition truth (v : Json) : bool :=
  match v with
  | JNull => false
  | JBool b => b
  | JInt n => negb (n =? 0)
  | JFloat literal => negb (float_is_zero literal)
  | JStr s => negb (String.eqb s EmptyString)
  | JList items => match items with [] => false | _ => true end
  | JDict items => match items with [] => false | _ => true end
  end.

(** [v[key]] for a string [key]. *)
Definition item (v : Json) (key : string) : string + Json :=
  match v with
  | JDict items =>
      match Py.lookup key items with
      | Some x => inr x
      | None => inl "KeyError"
      end
  | _ => inl "TypeError"
  end.

(** [v[:20]], for the class of what it raises: a string and a list have
    slices. *)
Definition slice20_raises (v : Json) : option string :=
  match v with
  | JStr _ | JList _ => None
  | JDict _ => Some slice_of_dict_error
  | _ => Some "TypeError"
  end.

(** [str(v)], as the f-string of the [Authorization] header takes it. *)
Definition str_of (v : Json) : string :=
  match v with
  | JStr s => s
  | _ => str_of_other v
  end.

(** The body of the first [try] (lines 27-31), from the file read on:
    the value of [API_KEY] when the body is left, and the class of the
    exception that left it, if any. *)
Definition config_body (API_KEY : Json) (config : FileRead) : Json * option string :=
  match config with
  | FileNotFound => (API_KEY, Some "FileNotFoundError")
  | FileError type_name => (API_KEY, Some type_name)
  | FileInvalid _ => (API_KEY, Some "JSONDecodeError")
  | FileJson c =>
      if negb (truth API_KEY) then
        match classed (Py.get c "api_keys" JNull) with
        | inl cls => (API_KEY, Some cls)
        | inr api_keys =>
            if truth api_keys then
              match (let! entry := classed (Py.item0 api_keys) in item entry "key") with
              | inl cls => (API_KEY, Some cls)
              | inr key => (key, slice20_raises key)
              end
            else (API_KEY, None)
        end
      else (API_KEY, None)
  end.

(** The first [try] with its [except] (lines 26-33): the new [API_KEY],
    or the class of an exception the clause does not take. *)
Definition config_key (API_KEY : Json) (config : FileRead) : string + Json :=
  match config_body API_KEY config with
  | (key, None) => inr key
  | (key, Some cls) =>
      if String.eqb cls "FileNotFoundError" || String.eqb cls "JSONDecodeError"
         || String.eqb cls "IndexError"
      then inr key else inl cls
  end.

(** [for m in models]: the items of a list, the keys of a dict, the
    characters of a string. *)
Definition iterate (v : Json) : string + list Json :=
  match v with
  | JList items => inr items
  | JDict items => inr (map (fun kv => JStr (fst kv)) items)
  | JStr s => inr (map (fun c => JStr (String c EmptyString)) (PyStr.chars s))
  | _ => inl "TypeError"
  end.

(** The test of the first comprehension (line 39). *)
Definition text_capable (m : Json) : string + bool :=
  let! capabilities := classed (Py.get m "capabilities" (JDict [])) in
  let! output := classed (Py.get capabilities "outputCapabilities" (JDict [])) in
  let! text := classed (Py.get output "text" JNull) in
  inr (truth text).

Fixpoint text_models (models : list Json) : string + list Json :=
  match models with
  | [] => inr []
  | m :: rest =>
      let! keep := text_capable m in
      let! others := text_models rest in
      inr (if keep then m :: others else others)
  end.

(** The second comprehension (line 40), on entries that are dicts since
    they went through the first. *)
Fixpoint model_names (text_models : list Json) : string + list Json :=
  match text_models with
  | [] => inr []
  | m :: rest =>
      let! name := classed (Py.get m "publicName" JNull) in
      let! others := model_names rest in
      inr (if truth name then name :: others else others)
  end.

Definition is_str (s : string) (v : Json) : bool :=
  match v with
  | JStr t => String.eqb t s
  | _ => false
  end.

(** [', '.join(names)]: every item has to be a string. *)
Fixpoint join_names (names : list Json) : string + string :=
  match names with
  | [] => inr EmptyString
  | JStr n :: rest =>
      let! others := join_names rest in
      inr (match rest with [] => n | _ => n ++ ", " ++ others end)
  | _ :: _ => inl "TypeError"
  end.

(** The body of the second [try] (lines 37-45). *)
Definition models_body (models : FileRead) : string + ModelCheck :=
  match models with
  | FileNotFound => inl "FileNotFoundError"
  | FileError type_name => inl type_name
  | FileInvalid _ => inl "JSONDecodeError"
  | FileJson v =>
      let! entries := iterate v in
      let! texts := text_models entries in
      let! names := model_names texts in
      if negb (existsb (is_str MODEL) names)
         && match texts with [] => false | _ => true end
      then
        let! shown := join_names (firstn 5 names) in
        inr (ModelNotFound shown)
      else inr UsingModel
  end.

(** The second [try] with its [except] (lines 36-47). *)
Definition model_check (models : FileRead) : string + ModelCheck :=
  match models_body models with
  | inr check => inr check
  | inl cls =>
      if String.eqb cls "FileNotFoundError" || String.eqb cls "JSONDecodeError"
      then inr CouldNotLoadModels else inl cls
  end.

(** [load_config]: the [API_KEY] it leaves and what it says of the model,
    or the class of the exception that leaves it. *)
Definition load_config (API_KEY : Json) (config models : FileRead)
  : string + (Json * ModelCheck) :=
  let! key := config_key API_KEY config in
  let! check := model_check models in
  inr (key, check).

(** ** The script from its first line to its exit (lines 150-232) *)

Context {W : Type}.
Variable post : W -> Request -> Z -> PostOutcome * W.
Variable wait : W -> Z -> W.

(** [find_char_limit] (lines 150-225): the call of [load_config], started
    with the key [key0] of line 15 and the two files as they are read;
    [sys.exit(1)] when no key is there (lines 159-162); the search on the
    constants of the script otherwise. An exception of [load_config]
    leaves the function; its message is not modelled. *)
Definition find_char_limit (key0 : string) (config models : FileRead)
  (fuel : nat) : M W Report :=
  match load_config (JStr key0) config models with
  | inl cls => raise (ExOther cls EmptyString)
  | inr (key, _) =>
      if negb (truth key)
      then raise (ExBase "SystemExit" "1")
      else find_char_limit_with post wait (str_of key)
             STARTING_LENGTH STEP_SIZE MIN_LENGTH fuel
  end.

End Startup.

(** The code the interpreter exits with after the block at lines 227-232:
    0 when [find_char_limit] returns and on a [KeyboardInterrupt], the
    argument of [sys.exit] on a [SystemExit], 1 on any other exception.
    [None] when the run was cut for lack of fuel. *)
Definition exit_code (result : Outcome Report) : option Z :=
  match result with
  | Ret _ => Some 0
  | Raise (ExBase type_name code) =>
      if String.eqb type_name "KeyboardInterrupt" then Some 0
      else if String.eqb type_name "SystemExit" then
        match NilZero.int_of_string code with
        | Some n => Some (Z.of_int n)
        | None => Some 1
        end
      else Some 1
  | Raise _ => Some 1
  | OutOfFuel => None
  end.

(** * Facts *)

(** ** Strings *)

Lemma length_app (s t : string) :
  String.length (s ++ t) = (String.length s + String.length t)%nat.
Proof. induction s as [|c s IH]; simpl; [reflexivity | now rewrite IH]. Qed.

Lemma app_assoc_str (s t u : string) : (s ++ t) ++ u = s ++ (t ++ u).
Proof. induction s as [|c s IH]; simpl; [reflexivity | now rewrite IH]. Qed.

Lemma length_repeat (s : string) (n : nat) :
  String.length (PyStr.repeat s n) = (n * String.length s)%nat.
Proof.
  induction n as [|n IH]; simpl; [reflexivity|].
  now rewrite length_app, IH.
Qed.

Lemma length_substring0 (m : nat) (s : string) :
  String.length (substring 0 m s) = Nat.min m (String.length s).
Proof.
  revert s; induction m as [|m IH]; intros [|c s]; simpl; try reflexivity.
  now rewrite IH.
Qed.

Lemma prefix_substring0 (m : nat) (s : string) :
  prefix (substring 0 m s) s = true.
Proof.
  revert s; induction m as [|m IH]; intros [|c s]; simpl; try reflexivity.
  destruct (ascii_dec c c) as [_ | Hne]; [apply IH | now elim Hne].
Qed.

Lemma get_app_l (s t : string) (k : nat) :
  (k < String.length s)%nat -> String.get k (s ++ t) = String.get k s.
Proof. intros H. symmetry. now apply append_correct1. Qed.

Lemma get_app_r (s t : string) (k : nat) :
  (String.length s <= k)%nat ->
  String.get k (s ++ t) = String.get (k - String.length s) t.
Proof.
  intros H. rewrite (append_correct2 s t (k - String.length s)).
  f_equal. lia.
Qed.

Lemma get_substring0 (m k : nat) (s : string) :
  (k < m)%nat -> String.get k (substring 0 m s) = String.get k s.
Proof.
  intros H. rewrite (substring_correct1 s 0 m k H). f_equal. lia.
Qed.

(** Inside the repeated part every position reads the cycle. *)
Lemma get_repeat (s t : string) (n k : nat) :
  (k < n * String.length s)%nat ->
  String.get k (PyStr.repeat s n ++ t) = String.get (k mod String.length s) s.
Proof.
  revert k; induction n as [|n IH]; intros k Hk; simpl in *; [lia|].
  destruct (Nat.lt_ge_cases k (String.length s)) as [Hlt | Hge].
  - rewrite app_assoc_str, get_app_l by exact Hlt.
    now rewrite Nat.mod_small.
  - rewrite app_assoc_str, get_app_r by exact Hge.
    rewrite IH by lia. f_equal.
    replace k with ((k - String.length s) + 1 * String.length s)%nat at 2 by lia.
    now rewrite Nat.Div0.mod_add.
Qed.

Lemma get_in_chars (s : string) (k : nat) (c : ascii) :
  String.get k s = Some c -> In c (PyStr.chars s).
Proof.
  revert k; induction s as [|a s IH]; intros [|k]; simpl; try discriminate.
  - intros [= ->]. now left.
  - intros H. right. eauto.
Qed.

Lemma chars_all_by_get (s : string) (P : ascii -> Prop) :
  (forall k c, String.get k s = Some c -> P c) -> Forall P (PyStr.chars s).
Proof.
  induction s as [|a s IH]; intros H; simpl; constructor.
  - apply (H 0%nat). reflexivity.
  - apply IH. intros k c Hk. apply (H (S k)). exact Hk.
Qed.

Lemma get_some_lt (s : string) (k : nat) (c : ascii) :
  String.get k s = Some c -> (k < String.length s)%nat.
Proof.
  revert k; induction s as [|a s IH]; intros [|k]; simpl; try discriminate.
  - lia.
  - intros H. apply IH in H. lia.
Qed.

Lemma slice_to_200 (s : string) : PyStr.slice_to s 200 = substring 0 200 s.
Proof. reflexivity. Qed.

Lemma slice_to_200_len (s : string) : PyStr.len (PyStr.slice_to s 200) <= 200.
Proof.
  rewrite slice_to_200. unfold PyStr.len. rewrite length_substring0. lia.
Qed.

(** ** The prompt generator: length and contents *)

Lemma base_text_len : PyStr.len base_text = 37.
Proof. reflexivity. Qed.

(** The two parts of a prompt of [L >= 0] characters: [L / 37] whole
    cycles and the first [L mod 37] characters of one more. *)
Lemma generate_test_prompt_parts (L : Z) :
  0 <= L ->
  generate_test_prompt L =
    PyStr.repeat base_text (Z.to_nat (L / 37)) ++
    substring 0 (Z.to_nat (L mod 37)) base_text.
Proof.
  intros HL. unfold generate_test_prompt, PyStr.mul, PyStr.slice_to.
  rewrite base_text_len.
  assert (H : (L mod 37 <? 0) = false) by (apply Z.ltb_ge, Z.mod_pos_bound; lia).
  now rewrite H.
Qed.

Lemma generate_test_prompt_length (L : Z) :
  0 <= L -> PyStr.len (generate_test_prompt L) = L.
Proof.
  intros HL. rewrite generate_test_prompt_parts by exact HL.
  unfold PyStr.len. rewrite length_app, length_repeat, length_substring0.
  change (String.length base_text) with 37%nat.
  pose proof (Z.mod_pos_bound L 37 ltac:(lia)) as Hm.
  pose proof (Z.div_mod L 37 ltac:(lia)) as Hd.
  assert (0 <= L / 37) by (apply Z.div_pos; lia).
  lia.
Qed.

(** A negative length still gives a prompt: no whole cycle and the first
    [L mod 37] characters of one. *)
Lemma generate_test_prompt_negative (L : Z) :
  L < 0 -> 0 <= PyStr.len (generate_test_prompt L) <= 36.
Proof.
  intros HL. unfold generate_test_prompt, PyStr.mul, PyStr.slice_to.
  rewrite base_text_len.
  pose proof (Z.mod_pos_bound L 37 ltac:(lia)) as Hm.
  assert (H : (L mod 37 <? 0) = false) by (apply Z.ltb_ge; lia).
  rewrite H.
  assert (Hq : L / 37 < 0) by (apply Z.div_lt_upper_bound; lia).
  replace (Z.to_nat (L / 37)) with 0%nat by lia.
  unfold PyStr.len. rewrite length_app, length_substring0.
  change (String.length base_text) with 37%nat.
  change (String.length (PyStr.repeat base_text 0)) with 0%nat. lia.
Qed.

Lemma generate_test_prompt_get (L : Z) (k : nat) :
  0 <= L -> Z.of_nat k < L ->
  String.get k (generate_test_prompt L) = String.get (k mod 37) base_text.
Proof.
  intros HL Hk. rewrite generate_test_prompt_parts by exact HL.
  pose proof (Z.mod_pos_bound L 37 ltac:(lia)) as Hm.
  pose proof (Z.div_mod L 37 ltac:(lia)) as Hd.
  assert (Hq : 0 <= L / 37) by (apply Z.div_pos; lia).
  set (q := Z.to_nat (L / 37)). set (r := Z.to_nat (L mod 37)).
  assert (HL' : Z.to_nat L = (q * 37 + r)%nat) by (subst q r; lia).
  destruct (Nat.lt_ge_cases k (q * 37)) as [Hlt | Hge].
  - now rewrite get_repeat.
  - rewrite get_app_r by (rewrite length_repeat; exact Hge).
    rewrite length_repeat. change (String.length base_text) with 37%nat.
    rewrite get_substring0 by lia. f_equal.
    replace k with ((k - q * 37) + q * 37)%nat at 2 by lia.
    rewrite Nat.Div0.mod_add. symmetry. apply Nat.mod_small. lia.
Qed.

Lemma generate_test_prompt_alphabet (L : Z) :
  0 <= L ->
  Forall (fun c => In c (PyStr.chars base_text))
         (PyStr.chars (generate_test_prompt L)).
Proof.
  intros HL. apply chars_all_by_get. intros k c Hk.
  pose proof (get_some_lt _ _ _ Hk) as Hlt.
  pose proof (generate_test_prompt_length L HL) as Hlen. unfold PyStr.len in Hlen.
  rewrite generate_test_prompt_get in Hk by lia.
  eapply get_in_chars. exact Hk.
Qed.

(** C4, as stated: no cycle of 38 characters gives the prompts of the
    generator. A prompt of 76 characters would read the same character at
    positions 0 and 38; the generator puts [a] at the first and [b] at the
    second. *)
Lemma prompt_cycle_is_not_38 : ~ repeats_cycle_of 38 generate_test_prompt.
Proof.
  intros (cycle & _ & H).
  destruct (H 76 ltac:(lia)) as (_ & _ & Hget).
  pose proof (Hget 0%nat ltac:(lia)) as H0.
  pose proof (Hget 38%nat ltac:(lia)) as H38.
  change (38 mod 38)%nat with 0%nat in H38.
  change (0 mod 38)%nat with 0%nat in H0.
  rewrite <- H0 in H38. vm_compute in H38. discriminate H38.
Qed.

(** C4, amended: the cycle has 37 characters. For every non-negative [L]
    the prompt has exactly [L] characters, each of them one of the 37
    characters of [base_text] (the letters, the digits and the space), the
    character at position [k] being the one at position [k mod 37] of
    [base_text]: whole repetitions and a last one cut to fit. *)
Theorem generate_test_prompt_cycle (L : Z) :
  0 <= L ->
  String.length base_text = 37%nat /\
  PyStr.len (generate_test_prompt L) = L /\
  Forall (fun c => In c (PyStr.chars base_text))
         (PyStr.chars (generate_test_prompt L)) /\
  forall k : nat, Z.of_nat k < L ->
    String.get k (generate_test_prompt L) = String.get (k mod 37) base_text.
Proof.
  intros HL. split; [reflexivity|]. split; [|split].
  - now apply generate_test_prompt_length.
  - now apply generate_test_prompt_alphabet.
  - intros k Hk. now apply generate_test_prompt_get.
Qed.

Lemma generate_test_prompt_cycle_witness :
  0 <= 40 /\
  PyStr.len (generate_test_prompt 40) = 40 /\
  String.get 38 (generate_test_prompt 40) = String.get (38 mod 37) base_text.
Proof.
  split; [lia|].
  destruct (generate_test_prompt_cycle 40 ltac:(lia)) as (_ & Hlen & _ & Hget).
  split; [exact Hlen | apply Hget; simpl; lia].
Defined.

(** ** The probe *)

Lemma ebind_raises {A B : Type} (m : Exn + A) (k : A -> Exn + B) :
  raises_only_Exception m ->
  (forall a, raises_only_Exception (k a)) ->
  raises_only_Exception (ebind m k).
Proof.
  intros Hm Hk e. destruct m as [e' | a]; simpl.
  - intros [= <-]. now apply Hm.
  - apply Hk.
Qed.

Lemma get_raises (v : Json) (key : string) (default : Json) :
  raises_only_Exception (Py.get v key default).
Proof.
  intros e. destruct v; simpl; intros [= <-]; unfold Py.AttributeError; eauto.
Qed.

Lemma item0_raises (v : Json) : raises_only_Exception (Py.item0 v).
Proof.
  intros e. destruct v as [| | | |[|c s]|[|x items]|]; simpl; intros [= <-];
    unfold Py.TypeError, Py.IndexError, Py.KeyError; eauto.
Qed.

Lemma len_raises (v : Json) : raises_only_Exception (Py.len v).
Proof.
  intros e. destruct v; simpl; intros [= <-]; unfold Py.TypeError; eauto.
Qed.

Lemma response_text_len_raises (response : Response) :
  raises_only_Exception (response_text_len response).
Proof.
  unfold response_text_len.
  apply ebind_raises.
  { intros e. destruct (json response); intros [= <-].
    unfold Py.JSONDecodeError. eauto. }
  intros result. apply ebind_raises; [apply get_raises|].
  intros choices. apply ebind_raises; [apply item0_raises|].
  intros choice. apply ebind_raises; [apply get_raises|].
  intros message. apply ebind_raises; [apply get_raises|].
  intros response_text. apply len_raises.
Qed.

(** The verdict on a response with status 200, by what the logged
    extraction does. *)
Lemma classify_200 (timeout : Z) (response : Response) :
  status_code response = 200 ->
  classify timeout (Returned response) =
    match response_text_len response with
    | inr _ => inr (true, None)
    | inl e => except_clauses timeout e
    end.
Proof.
  intros H. unfold classify, try_body. rewrite H. simpl.
  now destruct (response_text_len response).
Qed.

Lemma classify_not_200 (timeout : Z) (response : Response) :
  status_code response <> 200 ->
  classify timeout (Returned response) =
    inr (false, Some ("Status " ++ PyStr.of_int (status_code response) ++ ": "
                      ++ PyStr.slice_to (text response) 200)).
Proof.
  intros H. unfold classify, try_body.
  destruct (Z.eqb_spec (status_code response) 200) as [Heq | _];
    [contradiction | reflexivity].
Qed.

(** The [except Exception] clause closes the list: whatever the outcome of
    the [post], short of an exception outside [Exception], the probe has a
    verdict, and an error message exactly when the verdict is a failure. *)
Lemma classify_returns (timeout : Z) (outcome : PostOutcome) :
  transport_outcome outcome ->
  exists success error_msg,
    classify timeout outcome = inr (success, error_msg) /\
    (success = true <-> error_msg = None).
Proof.
  intros Hout. destruct outcome as [response | e].
  - destruct (Z.eq_dec (status_code response) 200) as [H200 | Hnot].
    + rewrite classify_200 by exact H200.
      pose proof (response_text_len_raises response) as Hr.
      destruct (response_text_len response) as [e | n].
      * destruct (Hr e eq_refl) as (tn & msg & ->). simpl.
        eexists _, _. split; [reflexivity|]. split; discriminate.
      * eexists _, _. split; [reflexivity|]. split; reflexivity.
    + rewrite classify_not_200 by exact Hnot.
      eexists _, _. split; [reflexivity|]. split; discriminate.
  - destruct e; simpl in Hout; try discriminate; unfold classify; simpl;
      eexists _, _; (split; [reflexivity|]); split; discriminate.
Qed.

Section ProbeFacts.

Context {W : Type}.
Variable post : W -> Request -> Z -> PostOutcome * W.
Variable API_KEY : string.

Local Abbreviation test_request := (test_request post API_KEY).
Local Abbreviation request_for := (request_for API_KEY).

(** [test_request] is [classify] on what the environment answers. *)
Lemma test_request_classify (length timeout : Z) (s : State W)
      (outcome : PostOutcome) (w : W) (success : bool) (error_msg : option string) :
  post (world s) (request_for length) timeout = (outcome, w) ->
  classify timeout outcome = inr (success, error_msg) ->
  test_request length timeout s =
    (Ret (success, error_msg),
     {| world := w; trace := trace s ++ [EvProbe length success] |}).
Proof.
  intros Hpost Hc. unfold test_request. now rewrite Hpost, Hc.
Qed.

Lemma test_request_propagates (length timeout : Z) (s : State W)
      (outcome : PostOutcome) (w : W) (e : Exn) :
  post (world s) (request_for length) timeout = (outcome, w) ->
  classify timeout outcome = inl e ->
  test_request length timeout s = (Raise e, {| world := w; trace := trace s |}).
Proof.
  intros Hpost Hc. unfold test_request. now rewrite Hpost, Hc.
Qed.

(** In a well-behaved environment a probe returns, and leaves one event. *)
Lemma test_request_returns (length timeout : Z) (s : State W) :
  well_behaved post ->
  exists success error_msg w,
    test_request length timeout s =
      (Ret (success, error_msg),
       {| world := w; trace := trace s ++ [EvProbe length success] |}).
Proof.
  intros Hwb.
  pose proof (Hwb (world s) (request_for length) timeout) as Hout.
  destruct (post (world s) (request_for length) timeout) as [outcome w] eqn:Hpost.
  destruct (classify_returns timeout outcome Hout) as (success & err & Hc & _).
  exists success, err, w. now apply test_request_classify with (outcome := outcome).
Qed.

(** An exception outside [Exception] is the one thing that leaves the
    probe. *)
Lemma test_request_interrupted (length timeout : Z) (s : State W)
      (type_name msg : string) (w : W) :
  post (world s) (request_for length) timeout = (Raised (ExBase type_name msg), w) ->
  fst (test_request length timeout s) = Raise (ExBase type_name msg).
Proof.
  intros Hpost.
  now rewrite (test_request_propagates length timeout s _ w (ExBase type_name msg) Hpost).
Qed.

(** C5, amended: a response with status 200 gives [succeeded = true] and
    no error message whenever the extraction of the first choice's
    message content raises nothing, whatever the content then is; when the
    extraction raises (a body that is no JSON, an empty [choices], a part
    of the wrong type) the [except Exception] clause makes the verdict a
    failure with an "Unexpected error" message. *)
Theorem status_200_verdict (length timeout : Z) (s : State W)
        (response : Response) (w : W) :
  post (world s) (request_for length) timeout = (Returned response, w) ->
  status_code response = 200 ->
  match response_text_len response with
  | inr _ =>
      test_request length timeout s =
        (Ret (true, None),
         {| world := w; trace := trace s ++ [EvProbe length true] |})
  | inl e =>
      exists type_name msg,
        e = ExOther type_name msg /\
        test_request length timeout s =
          (Ret (false, Some ("Unexpected error: " ++ type_name ++ ": " ++ msg)),
           {| world := w; trace := trace s ++ [EvProbe length false] |})
  end.
Proof.
  intros Hpost H200.
  pose proof (classify_200 timeout response H200) as Hc.
  pose proof (response_text_len_raises response) as Hr.
  destruct (response_text_len response) as [e | n].
  - destruct (Hr e eq_refl) as (tn & msg & ->). exists tn, msg.
    split; [reflexivity|].
    now apply test_request_classify with (outcome := Returned response).
  - now apply test_request_classify with (outcome := Returned response).
Qed.

(** C6: every outcome that is no success is a failure. A response with a
    status other than 200 gives [false] and "Status <code>: " followed by
    the first 200 characters of the body at most; a timeout gives [false]
    and "Request timed out after <timeout>s"; any other [Exception] of the
    transport gives [false] and "Unexpected error: <type>: <message>". The
    result is the pair alone: no status is returned beside it, and the
    message of these two is made of the timeout and of the exception
    only. The clause for [HTTPStatusError], an exception that
    [raise_for_status] alone raises, gives a failure as well. *)
Theorem failures_are_classified (length timeout : Z) (s : State W)
        (outcome : PostOutcome) (w : W) :
  post (world s) (request_for length) timeout = (outcome, w) ->
  let after success :=
    {| world := w; trace := trace s ++ [EvProbe length success] |} in
  (forall response,
      outcome = Returned response -> status_code response <> 200 ->
      exists detail,
        test_request length timeout s =
          (Ret (false, Some ("Status " ++ PyStr.of_int (status_code response)
                             ++ ": " ++ detail)), after false) /\
        PyStr.len detail <= 200 /\
        detail = substring 0 200 (text response) /\
        prefix detail (text response) = true) /\
  (forall type_name msg,
      outcome = Raised (ExTimeout type_name msg) ->
      test_request length timeout s =
        (Ret (false, Some ("Request timed out after " ++ PyStr.of_int timeout ++ "s")),
         after false)) /\
  (forall type_name msg,
      outcome = Raised (ExOther type_name msg) ->
      test_request length timeout s =
        (Ret (false, Some ("Unexpected error: " ++ type_name ++ ": " ++ msg)),
         after false)) /\
  (forall response msg,
      outcome = Raised (ExHTTPStatus response msg) ->
      test_request length timeout s =
        (Ret (false, Some ("HTTP error " ++ PyStr.of_int (status_code response)
                           ++ ": " ++ PyStr.slice_to (text response) 200)),
         after false)).
Proof.
  intros Hpost after. split; [|split; [|split]].
  - intros response -> Hnot. exists (PyStr.slice_to (text response) 200).
    split; [|split; [|split]].
    + apply test_request_classify with (outcome := Returned response);
        [exact Hpost | now apply classify_not_200].
    + apply slice_to_200_len.
    + apply slice_to_200.
    + rewrite slice_to_200. apply prefix_substring0.
  - intros tn msg ->.
    now apply test_request_classify with (outcome := Raised (ExTimeout tn msg)).
  - intros tn msg ->.
    now apply test_request_classify with (outcome := Raised (ExOther tn msg)).
  - intros response msg ->.
    now apply test_request_classify
      with (outcome := Raised (ExHTTPStatus response msg)).
Qed.

(** C10: the probe raises nothing to its caller. Whatever response the
    endpoint gives and whatever [Exception] the transport raises, the
    probe returns a pair; a 200 whose body is no JSON and a 200 whose
    [choices] is empty are failures with the message of the
    [except Exception] clause. *)
Theorem test_request_total (length timeout : Z) (s : State W) :
  transport_outcome (fst (post (world s) (request_for length) timeout)) ->
  (exists success error_msg s',
      test_request length timeout s = (Ret (success, error_msg), s') /\
      (success = true <-> error_msg = None)) /\
  (forall response msg,
      fst (post (world s) (request_for length) timeout) = Returned response ->
      status_code response = 200 -> json response = inl msg ->
      fst (test_request length timeout s) =
        Ret (false, Some ("Unexpected error: JSONDecodeError: " ++ msg))) /\
  (forall response items,
      fst (post (world s) (request_for length) timeout) = Returned response ->
      status_code response = 200 -> json response = inr (JDict items) ->
      Py.lookup "choices" items = Some (JList []) ->
      fst (test_request length timeout s) =
        Ret (false, Some "Unexpected error: IndexError: list index out of range")).
Proof.
  destruct (post (world s) (request_for length) timeout) as [outcome w] eqn:Hpost.
  simpl fst. intros Hout. split; [|split].
  - destruct (classify_returns timeout outcome Hout) as (success & err & Hc & Hiff).
    exists success, err. eexists. split; [|exact Hiff].
    apply test_request_classify with (outcome := outcome); [exact Hpost | exact Hc].
  - intros response msg -> H200 Hjson.
    rewrite (test_request_classify length timeout s (Returned response) w false
               (Some ("Unexpected error: JSONDecodeError: " ++ msg)) Hpost);
      [reflexivity|].
    rewrite classify_200 by exact H200.
    unfold response_text_len. now rewrite Hjson.
  - intros response items -> H200 Hjson Hchoices.
    rewrite (test_request_classify length timeout s (Returned response) w false
               (Some "Unexpected error: IndexError: list index out of range") Hpost);
      [reflexivity|].
    rewrite classify_200 by exact H200.
    unfold response_text_len. rewrite Hjson. simpl. now rewrite Hchoices.
Qed.

End ProbeFacts.

(** ** The search *)

Lemma descent_S (start step : Z) (n : nat) :
  descent start step (S n) =
    EvProbe start false :: EvSleep 2 :: descent (start - step) step n.
Proof.
  unfold descent. rewrite <- cons_seq. simpl flat_map.
  rewrite Z.sub_0_r. do 2 f_equal.
  rewrite <- seq_shift, !flat_map_concat_map, map_map.
  f_equal. apply map_ext. intros k. do 2 f_equal. lia.
Qed.

Lemma descent_no_phase2 (start step : Z) (n : nat) :
  phase2_entered (descent start step n) = false.
Proof.
  revert start; induction n as [|n IH]; intros start; [reflexivity|].
  rewrite descent_S. simpl. apply IH.
Qed.

Lemma descent_delays (start step : Z) (n : nat) :
  delay_after_every_probe (descent start step n) = true.
Proof.
  revert start; induction n as [|n IH]; intros start; [reflexivity|].
  rewrite descent_S. simpl. apply IH.
Qed.

Section SearchFacts.

Context {W : Type}.
Variable post : W -> Request -> Z -> PostOutcome * W.
Variable wait : W -> Z -> W.
Variable API_KEY : string.

Local Abbreviation test_request := (test_request post API_KEY).
Local Abbreviation bs_body := (bs_body post wait API_KEY).
Local Abbreviation bs_loop := (bs_loop post wait API_KEY).
Local Abbreviation binary_search := (binary_search post wait API_KEY).
Local Abbreviation p1_body := (p1_body post wait API_KEY).
Local Abbreviation p1_loop := (p1_loop post wait API_KEY).
Local Abbreviation phase1 := (phase1 post wait API_KEY).
Local Abbreviation find_char_limit_with := (find_char_limit_with post wait API_KEY).

Local Abbreviation slept := (slept wait).

Lemma test_request_trace (length timeout : Z) (s s1 : State W)
      (success : bool) (error_msg : option string) :
  test_request length timeout s = (Ret (success, error_msg), s1) ->
  trace s1 = (trace s ++ [EvProbe length success])%list.
Proof.
  unfold test_request.
  destruct (post (world s) (request_for API_KEY length) timeout) as [outcome w].
  destruct (classify timeout outcome) as [e | [ok err]]; [discriminate|].
  intros [= -> _ <-]. reflexivity.
Qed.

(** One turn of each loop, once the probe has returned. *)
Lemma bs_body_of_probe (v : BsVars) (s s1 : State W)
      (success : bool) (error_msg : option string) :
  test_request (bs_mid v) 60 s = (Ret (success, error_msg), s1) ->
  bs_body v s = (Ret (bs_next v success), slept s1).
Proof.
  intros H. unfold bs_body, bind. fold (bs_mid v). rewrite H.
  now destruct success.
Qed.

Lemma p1_body_of_probe (step_size : Z) (v : P1Vars) (s s1 : State W)
      (success : bool) (error_msg : option string) :
  test_request (current_length v) 60 s = (Ret (success, error_msg), s1) ->
  p1_body step_size v s =
    if success then (Ret (p1_found v, true), s1)
    else (Ret (p1_next step_size v, false), slept s1).
Proof.
  intros H. unfold p1_body, bind. rewrite H.
  now destruct success.
Qed.

Lemma bs_body_returns (v : BsVars) (s : State W) :
  well_behaved post ->
  exists success s',
    verdict (fst (test_request (bs_mid v) 60 s)) = Some success /\
    bs_body v s = (Ret (bs_next v success), s') /\
    trace s' = (trace s ++ [EvProbe (bs_mid v) success; EvSleep 2])%list.
Proof.
  intros Hwb.
  destruct (test_request_returns post API_KEY (bs_mid v) 60 s Hwb)
    as (success & err & w & Hprobe).
  exists success. eexists. split; [now rewrite Hprobe|]. split.
  - eapply bs_body_of_probe. exact Hprobe.
  - simpl. now rewrite <- app_assoc.
Qed.

(** The midpoint lies in the interval, so a turn narrows it. *)
Lemma bs_next_narrows (v : BsVars) (success : bool) :
  0 <= max_len v - min_len v ->
  max_len (bs_next v success) - min_len (bs_next v success)
    <= max_len v - min_len v - 1.
Proof.
  intros Hw. unfold bs_next, bs_mid.
  assert (Hlo : min_len v <= (min_len v + max_len v) / 2)
    by (apply Z.div_le_lower_bound; lia).
  assert (Hhi : (min_len v + max_len v) / 2 <= max_len v)
    by (apply Z.div_le_upper_bound; lia).
  destruct success; simpl; lia.
Qed.

Lemma bs_loop_exit (fuel : nat) (step : Z) (v : BsVars) (s : State W) :
  max_len v - min_len v <= step -> bs_loop fuel step v s = (Ret v, s).
Proof.
  intros H. destruct fuel; simpl;
    (destruct (Z.gtb_spec (max_len v - min_len v) step); [lia | reflexivity]).
Qed.

Lemma bs_loop_turn (fuel : nat) (step : Z) (v v' : BsVars) (s s' : State W) :
  max_len v - min_len v > step ->
  bs_body v s = (Ret v', s') ->
  bs_loop (S fuel) step v s = bs_loop fuel step v' s'.
Proof.
  intros Hw Hbody. simpl.
  destruct (Z.gtb_spec (max_len v - min_len v) step); [|lia].
  unfold bind. now rewrite Hbody.
Qed.

(** The loop of [binary_search] ends within [max_len - min_len - step]
    turns, on an interval no wider than [step], [last_success] being the
    last length that succeeded. *)
Lemma bs_loop_terminates (step : Z) :
  well_behaved post -> 0 < step ->
  forall (fuel : nat) (v : BsVars) (s : State W),
    max_len v - min_len v - step <= Z.of_nat fuel ->
    exists v' s' evs,
      bs_loop fuel step v s = (Ret v', s') /\
      trace s' = (trace s ++ evs)%list /\
      max_len v' - min_len v' <= step /\
      last_success v' = last_good evs (last_success v).
Proof.
  intros Hwb Hstep. induction fuel as [|fuel IH]; intros v s Hfuel.
  - exists v, s, []. rewrite bs_loop_exit by lia.
    rewrite app_nil_r. repeat split; lia.
  - destruct (Z_le_gt_dec (max_len v - min_len v) step) as [Hle | Hgt].
    + exists v, s, []. rewrite bs_loop_exit by lia.
      rewrite app_nil_r. repeat split; lia.
    + destruct (bs_body_returns v s Hwb) as (success & s1 & _ & Hbody & Htr).
      pose proof (bs_next_narrows v success ltac:(lia)) as Hnarrow.
      destruct (IH (bs_next v success) s1 ltac:(lia))
        as (v' & s' & evs & Hloop & Htr' & Hexit & Hlast).
      exists v', s', ([EvProbe (bs_mid v) success; EvSleep 2] ++ evs)%list.
      rewrite (bs_loop_turn fuel step v _ s s1 Hgt Hbody).
      split; [exact Hloop|]. split; [|split; [exact Hexit|]].
      * rewrite Htr', Htr. now rewrite <- app_assoc.
      * rewrite Hlast. now destruct success.
Qed.

(** The loop of phase 1 from any point: [k] failures in a row, then a
    success or a length below the minimum. *)
Lemma p1_loop_descends (step_size min_length : Z) :
  well_behaved post -> 0 < step_size ->
  forall (fuel : nat) (v : P1Vars) (s : State W),
    current_length v - min_length < Z.of_nat fuel * step_size ->
    exists (k : nat) (v' : P1Vars) (s' : State W),
      p1_loop fuel step_size min_length v s = (Ret v', s') /\
      (forall j : nat, (j < k)%nat ->
         min_length <= current_length v - Z.of_nat j * step_size) /\
      first_failure_length v' =
        match k with
        | O => first_failure_length v
        | S j => Some (current_length v - Z.of_nat j * step_size)
        end /\
      ((min_length <= current_length v - Z.of_nat k * step_size /\
        trace s' = (trace s ++ descent (current_length v) step_size k
                      ++ [EvProbe (current_length v - Z.of_nat k * step_size) true])%list /\
        last_success_length v' = Some (current_length v - Z.of_nat k * step_size))
       \/
       (current_length v - Z.of_nat k * step_size < min_length /\
        trace s' = (trace s ++ descent (current_length v) step_size k)%list /\
        last_success_length v' = last_success_length v)).
Proof.
  intros Hwb Hstep. induction fuel as [|fuel IH]; intros v s Hfuel.
  - exists 0%nat, v, s. simpl.
    destruct (Z.geb_spec (current_length v) min_length); [lia|].
    split; [reflexivity|]. split; [lia|]. split; [reflexivity|].
    right. rewrite app_nil_r. repeat split; lia.
  - destruct (Z_lt_ge_dec (current_length v) min_length) as [Hlt | Hge].
    + exists 0%nat, v, s. simpl.
      destruct (Z.geb_spec (current_length v) min_length); [lia|].
      split; [reflexivity|]. split; [lia|]. split; [reflexivity|].
      right. rewrite app_nil_r. repeat split; lia.
    + destruct (test_request_returns post API_KEY (current_length v) 60 s Hwb)
        as (success & err & w & Hprobe).
      pose proof (p1_body_of_probe step_size v s _ success err Hprobe) as Hbody.
      simpl p1_loop.
      destruct (Z.geb_spec (current_length v) min_length); [|lia].
      unfold bind at 1. rewrite Hbody. destruct success.
      * exists 0%nat, (p1_found v). eexists. simpl.
        split; [reflexivity|]. split; [lia|]. split; [reflexivity|].
        left. rewrite Z.sub_0_r. repeat split; lia.
      * simpl snd. simpl fst. cbv iota.
        destruct (IH (p1_next step_size v)
                     (slept {| world := w;
                               trace := (trace s ++
                                 [EvProbe (current_length v) false])%list |}))
          as (k & v' & s' & Hloop & Hmin & Hff & Hcase).
        { simpl. lia. }
        exists (S k), v', s'. split; [exact Hloop|]. simpl in Hmin, Hff, Hcase.
        split; [|split].
        -- intros [|j] Hj; [lia|]. specialize (Hmin j ltac:(lia)). lia.
        -- rewrite Hff. destruct k as [|j]; [f_equal; lia | f_equal; lia].
        -- rewrite descent_S.
           replace (current_length v - Z.of_nat (S k) * step_size)
             with (current_length v - step_size - Z.of_nat k * step_size) by lia.
           destruct Hcase as [(Hk & Htr & Hls) | (Hk & Htr & Hls)]; [left | right];
             (split; [exact Hk|]); (split; [|exact Hls]);
             rewrite Htr, <- !app_assoc; reflexivity.
Qed.

End SearchFacts.

(** ** Traces replayed *)

Section ReplayFacts.

Context {W : Type}.
Variable post : W -> Request -> Z -> PostOutcome * W.
Variable wait : W -> Z -> W.
Variable API_KEY : string.

Local Abbreviation happened := (happened post wait API_KEY).
Local Abbreviation bs_body := (bs_body post wait API_KEY).
Local Abbreviation bs_loop := (bs_loop post wait API_KEY).
Local Abbreviation binary_search := (binary_search post wait API_KEY).
Local Abbreviation p1_body := (p1_body post wait API_KEY).
Local Abbreviation p1_loop := (p1_loop post wait API_KEY).
Local Abbreviation find_char_limit_with := (find_char_limit_with post wait API_KEY).

(** The events replayed are the events logged. *)
Lemma happened_trace (s s' : State W) (evs : list Event) :
  happened s evs s' -> trace s' = (trace s ++ evs)%list.
Proof.
  induction 1 as [s | s s1 s' length success err evs Hprobe _ IH
                  | s s' seconds evs _ IH | s s' lo hi step evs _ IH].
  - now rewrite app_nil_r.
  - rewrite IH, (test_request_trace post API_KEY _ _ _ _ _ _ Hprobe).
    now rewrite <- app_assoc.
  - rewrite IH. simpl. now rewrite <- app_assoc.
  - rewrite IH. simpl. now rewrite <- app_assoc.
Qed.

Lemma happened_app (s s1 s' : State W) (evs evs' : list Event) :
  happened s evs s1 -> happened s1 evs' s' -> happened s (evs ++ evs') s'.
Proof.
  induction 1 as [s | s s1 s2 length success err evs Hprobe _ IH
                  | s s2 seconds evs _ IH | s s2 lo hi step evs _ IH];
    intros Hrest; simpl.
  - exact Hrest.
  - eapply happened_probe; [exact Hprobe | now apply IH].
  - apply happened_sleep. now apply IH.
  - apply happened_binary_search. now apply IH.
Qed.

(** A run whose logged events are known is the replay of those events. *)
Lemma happened_logged (s s' : State W) (evs evs' : list Event) :
  happened s evs s' -> trace s' = (trace s ++ evs')%list -> happened s evs' s'.
Proof.
  intros Hh Htr. rewrite (happened_trace s s' evs Hh) in Htr.
  apply app_inv_head in Htr. now subst evs'.
Qed.

Lemma bs_body_happened (v v' : BsVars) (s s' : State W) :
  bs_body v s = (Ret v', s') ->
  exists success,
    v' = bs_next v success /\
    happened s [EvProbe (bs_mid v) success; EvSleep 2] s'.
Proof.
  unfold bs_body, bind. fold (bs_mid v).
  destruct (test_request post API_KEY (bs_mid v) 60 s)
    as [[[success err] | e |] s1] eqn:Hprobe; try discriminate.
  simpl. intros [= <- <-]. exists success. split; [now destruct success|].
  eapply happened_probe; [exact Hprobe|].
  apply happened_sleep. apply happened_nothing.
Qed.

Lemma bs_loop_happened (step : Z) (fuel : nat) :
  forall (v v' : BsVars) (s s' : State W),
    bs_loop fuel step v s = (Ret v', s') ->
    exists evs,
      happened s evs s' /\
      last_success v' = last_good evs (last_success v).
Proof.
  induction fuel as [|fuel IH]; intros v v' s s'; simpl;
    destruct (max_len v - min_len v >? step).
  - discriminate.
  - intros [= <- <-]. exists []. split; [apply happened_nothing | reflexivity].
  - unfold bind at 1.
    destruct (bs_body v s) as [[v1 | e |] s1] eqn:Hbody; try discriminate.
    intros Hloop.
    destruct (bs_body_happened v v1 s s1 Hbody) as (success & -> & Hturn).
    destruct (IH _ v' s1 s' Hloop) as (evs & Hrest & Hlast).
    eexists. split; [eapply happened_app; [exact Hturn | exact Hrest]|].
    rewrite Hlast. now destruct success.
  - intros [= <- <-]. exists []. split; [apply happened_nothing | reflexivity].
Qed.

Lemma binary_search_happened (fuel : nat) (min_len0 max_len0 step answer : Z)
      (s s' : State W) :
  binary_search fuel min_len0 max_len0 step s = (Ret answer, s') ->
  exists evs, happened s (EvBinarySearch min_len0 max_len0 step :: evs) s'.
Proof.
  unfold binary_search, bind, emit.
  destruct (bs_loop fuel step _ _) as [[v | e |] s1] eqn:Hloop; try discriminate.
  unfold ret. intros [= _ <-].
  destruct (bs_loop_happened step fuel _ _ _ _ Hloop) as (evs & Hh & _).
  exists evs. apply happened_binary_search. exact Hh.
Qed.

Lemma p1_body_happened (step_size : Z) (v v' : P1Vars) (left_by_break : bool)
      (s s' : State W) :
  p1_body step_size v s = (Ret (v', left_by_break), s') ->
  exists evs, happened s evs s'.
Proof.
  unfold p1_body, bind.
  destruct (test_request post API_KEY (current_length v) 60 s)
    as [[[success err] | e |] s1] eqn:Hprobe; try discriminate.
  simpl. destruct success; simpl; intros [= _ _ <-].
  - eexists. eapply happened_probe; [exact Hprobe | apply happened_nothing].
  - eexists. eapply happened_probe; [exact Hprobe|].
    apply happened_sleep. apply happened_nothing.
Qed.

Lemma p1_loop_happened (step_size min_length : Z) (fuel : nat) :
  forall (v v' : P1Vars) (s s' : State W),
    p1_loop fuel step_size min_length v s = (Ret v', s') ->
    exists evs, happened s evs s'.
Proof.
  induction fuel as [|fuel IH]; intros v v' s s'; simpl;
    destruct (current_length v >=? min_length).
  - discriminate.
  - intros [= _ <-]. exists []. apply happened_nothing.
  - unfold bind at 1.
    destruct (p1_body step_size v s) as [[[v1 brk] | e |] s1] eqn:Hbody;
      try discriminate.
    destruct (p1_body_happened step_size v v1 brk s s1 Hbody) as (evs1 & Hturn).
    simpl. destruct brk.
    + intros [= _ <-]. now exists evs1.
    + intros Hloop. destruct (IH v1 v' s1 s' Hloop) as (evs & Hrest).
      eexists. eapply happened_app; [exact Hturn | exact Hrest].
  - intros [= _ <-]. exists []. apply happened_nothing.
Qed.

Lemma find_char_limit_with_happened (starting_length step_size min_length : Z)
      (fuel : nat) (report : Report) (s s' : State W) :
  find_char_limit_with starting_length step_size min_length fuel s
    = (Ret report, s') ->
  exists evs, happened s evs s'.
Proof.
  unfold find_char_limit_with, phase1. unfold bind at 1.
  destruct (p1_loop fuel step_size min_length _ s) as [[v | e |] s1] eqn:Hp1;
    try discriminate.
  destruct (p1_loop_happened step_size min_length fuel _ _ _ _ Hp1) as (evs1 & H1).
  destruct (last_success_length v) as [good|];
    [|unfold ret; intros [= _ <-]; now exists evs1].
  unfold bind, ret.
  destruct (first_failure_length v) as [bad|].
  - destruct (Py.truthy (Some bad) && Py.truthy (Some good)).
    + destruct (binary_search fuel good bad 500 s1) as [[answer | e |] s2] eqn:Hbs;
        try discriminate.
      intros [= _ <-].
      destruct (binary_search_happened fuel good bad 500 answer s1 s2 Hbs)
        as (evs2 & H2).
      eexists. eapply happened_app; [exact H1 | exact H2].
    + intros [= _ <-]. now exists evs1.
  - intros [= _ <-]. now exists evs1.
Qed.

End ReplayFacts.

Section SearchClaims.

Context {W : Type}.
Variable post : W -> Request -> Z -> PostOutcome * W.
Variable wait : W -> Z -> W.
Variable API_KEY : string.

Local Abbreviation test_request := (test_request post API_KEY).
Local Abbreviation bs_body := (bs_body post wait API_KEY).
Local Abbreviation bs_loop := (bs_loop post wait API_KEY).
Local Abbreviation binary_search := (binary_search post wait API_KEY).
Local Abbreviation p1_body := (p1_body post wait API_KEY).
Local Abbreviation p1_loop := (p1_loop post wait API_KEY).
Local Abbreviation phase1 := (phase1 post wait API_KEY).
Local Abbreviation find_char_limit_with := (find_char_limit_with post wait API_KEY).
Local Abbreviation slept := (slept wait).

(** With a true limit every probe returns, with the verdict the limit
    gives. *)
Lemma oracle_probe (limit length : Z) (s : State W) :
  monotone_oracle post API_KEY limit ->
  exists error_msg s1,
    test_request length 60 s = (Ret (length <=? limit, error_msg), s1).
Proof.
  intros Horacle. specialize (Horacle length s).
  destruct (test_request length 60 s) as [[[success err] | e |] s1];
    simpl in Horacle; try discriminate.
  injection Horacle as ->. now exists err, s1.
Qed.

(** One turn of each loop under a true limit. *)
Lemma p1_turn_keeps_inv (limit step_size : Z) (v : P1Vars) (s : State W) :
  monotone_oracle post API_KEY limit ->
  p1_inv limit v ->
  exists v' left_by_break s',
    p1_body step_size v s = (Ret (v', left_by_break), s') /\ p1_inv limit v'.
Proof.
  intros Horacle [Hgood Hbad].
  destruct (oracle_probe limit (current_length v) s Horacle) as (err & s1 & Hprobe).
  pose proof (p1_body_of_probe post wait API_KEY step_size v s s1 _ err Hprobe)
    as Hbody.
  destruct (Z.leb_spec (current_length v) limit) as [Hle | Hgt].
  - exists (p1_found v), true, s1. split; [exact Hbody|].
    split; simpl; [intros good [= <-]; exact Hle | exact Hbad].
  - exists (p1_next step_size v), false, (slept s1). split; [exact Hbody|].
    split; simpl; [exact Hgood | intros bad [= <-]; exact Hgt].
Qed.

Lemma bs_turn_keeps_inv (limit : Z) (v : BsVars) (s : State W) :
  monotone_oracle post API_KEY limit ->
  bs_inv limit v ->
  exists v' s', bs_body v s = (Ret v', s') /\ bs_inv limit v'.
Proof.
  intros Horacle (Hlast & Hmin & Hmax).
  destruct (oracle_probe limit (bs_mid v) s Horacle) as (err & s1 & Hprobe).
  exists (bs_next v (bs_mid v <=? limit)), (slept s1).
  split; [eapply bs_body_of_probe; exact Hprobe|].
  unfold bs_inv, bs_next.
  destruct (Z.leb_spec (bs_mid v) limit); simpl; lia.
Qed.

Lemma p1_inv_straddle (limit : Z) (v : P1Vars) :
  p1_inv limit v -> bounds_straddle limit v.
Proof.
  intros [Hgood Hbad] good bad Hg Hb. split; [now apply Hgood | now apply Hbad].
Qed.

(** C1, amended: with a true limit, phase 1 keeps
    [last_success_length <= limit < first_failure_length] whenever both
    are defined, each bound being right on its own from the turn that
    sets it. Phase 2 starts from two such bounds and keeps, turn after
    turn, [last_success <= limit <= max_len] and [min_len <= limit + 1]:
    [last_success] is a working length and the limit stays between the
    two ends, which are one off the lengths probed. *)
Theorem search_keeps_bounds (limit : Z) :
  monotone_oracle post API_KEY limit ->
  (forall starting_length : Z,
      p1_inv limit {| current_length := starting_length;
                      last_success_length := None;
                      first_failure_length := None |}) /\
  (forall (step_size : Z) (v : P1Vars) (s : State W),
      p1_inv limit v ->
      exists v' left_by_break s',
        p1_body step_size v s = (Ret (v', left_by_break), s') /\
        p1_inv limit v' /\ bounds_straddle limit v') /\
  (forall good bad : Z,
      straddles limit good bad ->
      bs_inv limit {| min_len := good; max_len := bad; last_success := good |}) /\
  (forall (v : BsVars) (s : State W),
      bs_inv limit v ->
      exists v' s', bs_body v s = (Ret v', s') /\ bs_inv limit v').
Proof.
  intros Horacle. split; [|split; [|split]].
  - intros starting_length. split; simpl; discriminate.
  - intros step_size v s Hinv.
    destruct (p1_turn_keeps_inv limit step_size v s Horacle Hinv)
      as (v' & brk & s' & Hbody & Hinv').
    exists v', brk, s'. split; [exact Hbody|]. split; [exact Hinv'|].
    now apply p1_inv_straddle.
  - intros good bad [Hg Hb]. unfold bs_inv. simpl. lia.
  - intros v s Hinv. now apply bs_turn_keeps_inv.
Qed.

(** The invariants along the two loops, and what they give at the end:
    under a true limit the length reported works, and the first failure
    reported does not. *)
Lemma p1_loop_keeps_inv (limit step_size min_length : Z) :
  monotone_oracle post API_KEY limit ->
  forall (fuel : nat) (v v' : P1Vars) (s s' : State W),
    p1_inv limit v ->
    p1_loop fuel step_size min_length v s = (Ret v', s') ->
    p1_inv limit v'.
Proof.
  intros Horacle. induction fuel as [|fuel IH]; intros v v' s s' Hinv; simpl;
    destruct (current_length v >=? min_length).
  - discriminate.
  - now intros [= <- _].
  - destruct (p1_turn_keeps_inv limit step_size v s Horacle Hinv)
      as (v1 & brk & s1 & Hbody & Hinv1).
    unfold bind at 1. rewrite Hbody. simpl. destruct brk.
    + now intros [= <- _].
    + now apply IH.
  - now intros [= <- _].
Qed.

Lemma bs_loop_keeps_inv (limit step : Z) :
  monotone_oracle post API_KEY limit ->
  forall (fuel : nat) (v v' : BsVars) (s s' : State W),
    bs_inv limit v ->
    bs_loop fuel step v s = (Ret v', s') ->
    bs_inv limit v'.
Proof.
  intros Horacle. induction fuel as [|fuel IH]; intros v v' s s' Hinv; simpl;
    destruct (max_len v - min_len v >? step).
  - discriminate.
  - now intros [= <- _].
  - destruct (bs_turn_keeps_inv limit v s Horacle Hinv) as (v1 & s1 & Hbody & Hinv1).
    unfold bind at 1. rewrite Hbody. now apply IH.
  - now intros [= <- _].
Qed.

Lemma answer_is_a_working_length (limit starting_length step_size min_length : Z)
      (fuel : nat) (s s' : State W) (answer : Z) (first_failure : option Z) :
  monotone_oracle post API_KEY limit ->
  find_char_limit_with starting_length step_size min_length fuel s
    = (Ret (Results answer first_failure), s') ->
  answer <= limit /\ (forall bad, first_failure = Some bad -> limit < bad).
Proof.
  intros Horacle. unfold find_char_limit_with, phase1. unfold bind at 1.
  destruct (p1_loop fuel step_size min_length _ s) as [[v | e |] s1] eqn:Hp1;
    try discriminate.
  assert (Hinv : p1_inv limit v).
  { eapply p1_loop_keeps_inv; [exact Horacle | | exact Hp1].
    split; simpl; discriminate. }
  destruct Hinv as [Hgood Hbad].
  destruct (last_success_length v) as [good|] eqn:Hls; [|discriminate].
  specialize (Hgood good eq_refl).
  assert (Hff : forall bad,
             (if Py.truthy (first_failure_length v)
              then first_failure_length v else None) = Some bad -> limit < bad).
  { intros bad. destruct (Py.truthy (first_failure_length v)); [|discriminate].
    apply Hbad. }
  destruct (first_failure_length v) as [bad|] eqn:Hfl.
  - specialize (Hbad bad eq_refl).
    destruct (Py.truthy (Some bad) && Py.truthy (Some good)) eqn:Hgo.
    + unfold bind at 1, binary_search, bind, emit.
      destruct (bs_loop fuel 500 _ _) as [[v' | e |] s2] eqn:Hbs; try discriminate.
      apply (bs_loop_keeps_inv limit 500 Horacle) in Hbs;
        [|unfold bs_inv; simpl; lia].
      destruct Hbs as (Hlast & _). unfold ret.
      intros [= <- <- _]. split; [exact Hlast | exact Hff].
    + unfold bind, ret. intros [= <- <- _]. split; [exact Hgood | exact Hff].
  - unfold bind, ret. intros [= <- <- _]. split; [exact Hgood | exact Hff].
Qed.

(** C2, amended: a turn of the loop probes
    [mid = (min_len + max_len) // 2]; when the probe succeeds,
    [last_success] becomes [mid] and the lower bound [min_len] becomes
    [mid + 1]; when it fails, the upper bound [max_len] becomes
    [mid - 1]; a sleep of 2 seconds follows either way and the loop goes
    on from there. *)
Theorem bisection_turn (fuel : nat) (step : Z) (v : BsVars) (s : State W) :
  well_behaved post ->
  max_len v - min_len v > step ->
  let mid := (min_len v + max_len v) / 2 in
  exists success s',
    verdict (fst (test_request mid 60 s)) = Some success /\
    trace s' = (trace s ++ [EvProbe mid success; EvSleep 2])%list /\
    bs_loop (S fuel) step v s =
      bs_loop fuel step
        (if success
         then {| min_len := mid + 1; max_len := max_len v; last_success := mid |}
         else {| min_len := min_len v; max_len := mid - 1;
                 last_success := last_success v |})
        s'.
Proof.
  intros Hwb Hgt mid.
  destruct (bs_body_returns post wait API_KEY v s Hwb)
    as (success & s' & Hverdict & Hbody & Htr).
  exists success, s'. split; [exact Hverdict|]. split; [exact Htr|].
  rewrite (bs_loop_turn post wait API_KEY fuel step v _ s s' Hgt Hbody).
  now destruct success.
Qed.

(** C3: for a positive [step] and whatever the probes answer,
    [binary_search] returns once it has [max_len - min_len - step] turns
    at hand; its loop ends with [max_len - min_len <= step], and the
    value returned is the length of the last probe that succeeded, or the
    [min_len] it was called with when none did. The probes are those of
    the run replayed on the environment: each one was sent with
    [test_request] and came back with the verdict counted here. *)
Theorem binary_search_terminates (fuel : nat) (min_len0 max_len0 step : Z)
        (s : State W) :
  well_behaved post ->
  0 < step ->
  max_len0 - min_len0 - step <= Z.of_nat fuel ->
  exists (v : BsVars) (s' : State W) (evs : list Event),
    bs_loop fuel step
      {| min_len := min_len0; max_len := max_len0; last_success := min_len0 |}
      {| world := world s;
         trace := trace s ++ [EvBinarySearch min_len0 max_len0 step] |}
      = (Ret v, s') /\
    max_len v - min_len v <= step /\
    trace s' = (trace s ++ EvBinarySearch min_len0 max_len0 step :: evs)%list /\
    happened post wait API_KEY s
      (EvBinarySearch min_len0 max_len0 step :: evs) s' /\
    last_success v = last_good evs min_len0 /\
    binary_search fuel min_len0 max_len0 step s = (Ret (last_good evs min_len0), s').
Proof.
  intros Hwb Hstep Hfuel.
  destruct (bs_loop_terminates post wait API_KEY step Hwb Hstep fuel
              {| min_len := min_len0; max_len := max_len0; last_success := min_len0 |}
              {| world := world s;
                 trace := trace s ++ [EvBinarySearch min_len0 max_len0 step] |}
              Hfuel)
    as (v & s' & evs & Hloop & Htr & Hexit & Hlast).
  destruct (bs_loop_happened post wait API_KEY step fuel _ _ _ _ Hloop)
    as (evs' & Hh & _).
  apply (happened_logged post wait API_KEY _ _ _ evs) in Hh; [|exact Htr].
  simpl in Htr, Hlast. exists v, s', evs.
  split; [exact Hloop|]. split; [exact Hexit|].
  split; [now rewrite Htr, <- app_assoc|].
  split; [apply happened_binary_search; exact Hh|].
  split; [exact Hlast|].
  unfold binary_search, bind, emit. rewrite Hloop.
  unfold ret. now rewrite Hlast.
Qed.

(** C7: for a positive step and whatever the probes answer, phase 1
    tests [starting_length], [starting_length - step_size], ... in this
    order, every one of them at least [min_length], each failure followed
    by a sleep. It ends at the first success, whose length becomes
    [last_success_length], or when the next length is below
    [min_length]: then no length has worked, the script reports that
    every length failed and [binary_search] is not entered. The probes
    are those of the run replayed on the environment: each failure is a
    [test_request] that the endpoint failed, the success one that it
    passed. *)
Theorem phase1_descends (starting_length step_size min_length : Z)
        (s : State W) :
  well_behaved post ->
  0 < step_size ->
  exists (fuel k : nat) (v : P1Vars) (s' : State W),
    phase1 fuel starting_length step_size min_length s = (Ret v, s') /\
    (forall j : nat, (j < k)%nat ->
       min_length <= starting_length - Z.of_nat j * step_size) /\
    ((min_length <= starting_length - Z.of_nat k * step_size /\
      trace s' = (trace s ++ descent starting_length step_size k
                  ++ [EvProbe (starting_length - Z.of_nat k * step_size) true])%list /\
      happened post wait API_KEY s
        (descent starting_length step_size k
         ++ [EvProbe (starting_length - Z.of_nat k * step_size) true]) s' /\
      last_success_length v = Some (starting_length - Z.of_nat k * step_size))
     \/
     (starting_length - Z.of_nat k * step_size < min_length /\
      trace s' = (trace s ++ descent starting_length step_size k)%list /\
      happened post wait API_KEY s (descent starting_length step_size k) s' /\
      last_success_length v = None /\
      phase2_entered (descent starting_length step_size k) = false /\
      find_char_limit_with starting_length step_size min_length fuel s
        = (Ret (AllFailed min_length), s'))).
Proof.
  intros Hwb Hstep.
  set (fuel := S (Z.to_nat (starting_length - min_length))).
  destruct (p1_loop_descends post wait API_KEY step_size min_length Hwb Hstep fuel
              {| current_length := starting_length;
                 last_success_length := None;
                 first_failure_length := None |} s)
    as (k & v & s' & Hloop & Hmin & _ & Hcase).
  { cbn [current_length].
    assert (Hf : starting_length - min_length < Z.of_nat fuel /\ 1 <= Z.of_nat fuel)
      by (subst fuel; lia).
    assert (Z.of_nat fuel * 1 <= Z.of_nat fuel * step_size)
      by (apply Z.mul_le_mono_nonneg_l; lia).
    lia. }
  destruct (p1_loop_happened post wait API_KEY step_size min_length fuel _ _ _ _ Hloop)
    as (evs' & Hh).
  simpl in Hmin, Hcase. exists fuel, k, v, s'.
  split; [exact Hloop|]. split; [exact Hmin|].
  destruct Hcase as [(Hk & Htr & Hls) | (Hk & Htr & Hls)]; [left | right].
  - split; [exact Hk|]. split; [exact Htr|].
    split; [|exact Hls].
    eapply happened_logged; [exact Hh | exact Htr].
  - split; [exact Hk|]. split; [exact Htr|].
    split; [eapply happened_logged; [exact Hh | exact Htr]|].
    split; [exact Hls|].
    split; [apply descent_no_phase2|].
    unfold find_char_limit_with, bind, phase1.
    rewrite Hloop, Hls. reflexivity.
Qed.

(** C8: when the first probe, at [starting_length], succeeds, the answer
    reported is [starting_length] and [binary_search] is never entered:
    the run consists of that probe alone. *)
Theorem first_probe_success (starting_length step_size min_length : Z)
        (fuel : nat) (s s1 : State W) (error_msg : option string) :
  min_length <= starting_length ->
  test_request starting_length 60 s = (Ret (true, error_msg), s1) ->
  find_char_limit_with starting_length step_size min_length (S fuel) s
    = (Ret (Results starting_length None), s1) /\
  trace s1 = (trace s ++ [EvProbe starting_length true])%list /\
  phase2_entered (trace s1) = phase2_entered (trace s).
Proof.
  intros Hmin Hprobe.
  assert (Htr : trace s1 = (trace s ++ [EvProbe starting_length true])%list)
    by (eapply test_request_trace; exact Hprobe).
  split; [|split; [exact Htr|]];
    [|rewrite Htr; unfold phase2_entered; rewrite existsb_app; simpl;
      now rewrite !orb_false_r].
  - unfold find_char_limit_with, phase1, bind. simpl p1_loop.
    destruct (Z.geb_spec starting_length min_length); [|lia].
    unfold bind.
    rewrite (p1_body_of_probe post wait API_KEY step_size
               {| current_length := starting_length;
                  last_success_length := None;
                  first_failure_length := None |} s s1 true error_msg Hprobe).
    reflexivity.
Qed.

End SearchClaims.

(** ** The example environments *)

Lemma threshold_well_behaved (limit : Z) : well_behaved (threshold_post limit).
Proof. intros w request timeout. exact I. Qed.

Lemma limited_well_behaved (limit : Z) : well_behaved (limited_post limit).
Proof. intros w request timeout. exact I. Qed.

Lemma classify_ok_response (timeout : Z) :
  classify timeout (Returned ok_response) = inr (true, None).
Proof. reflexivity. Qed.

Lemma classify_too_large_response (timeout : Z) :
  classify timeout (Returned too_large_response)
  = inr (false, Some "Status 413: Payload Too Large").
Proof. reflexivity. Qed.

Lemma prompt_len_request_for (API_KEY : string) (length : Z) :
  prompt_len (request_for API_KEY length) = PyStr.len (generate_test_prompt length).
Proof. unfold prompt_len, request_for. simpl. lia. Qed.

(** The endpoint with a threshold has a true limit, the threshold, as soon
    as the threshold lets through the prompts of fewer than 37 characters
    that the generator makes of a negative length. *)
Lemma threshold_monotone (API_KEY : string) (limit : Z) :
  36 <= limit -> monotone_oracle (threshold_post limit) API_KEY limit.
Proof.
  intros Hlimit length s. unfold test_request, threshold_post.
  rewrite prompt_len_request_for.
  assert (Hsame : (PyStr.len (generate_test_prompt length) <=? limit)
                  = (length <=? limit)).
  { destruct (Z_lt_ge_dec length 0) as [Hneg | Hpos].
    - pose proof (generate_test_prompt_negative length Hneg).
      destruct (Z.leb_spec (PyStr.len (generate_test_prompt length)) limit);
        destruct (Z.leb_spec length limit); lia || reflexivity.
    - now rewrite generate_test_prompt_length by lia. }
  rewrite Hsame. destruct (length <=? limit).
  - now rewrite classify_ok_response.
  - now rewrite classify_too_large_response.
Qed.

(** ** C4 to C10 on examples *)

(** C5, as stated: a 200 is not a success whatever the body. A 200 whose
    body is a page of HTML is a failure, and so is one whose [choices] is
    an empty list. *)
Lemma status_200_is_not_always_success :
  ~ (forall (W : Type) (post : W -> Request -> Z -> PostOutcome * W)
            (API_KEY : string) (length timeout : Z) (s : State W)
            (response : Response) (w : W),
        post (world s) (request_for API_KEY length) timeout = (Returned response, w) ->
        status_code response = 200 ->
        exists error_msg s',
          test_request post API_KEY length timeout s = (Ret (true, error_msg), s')).
Proof.
  intros H.
  destruct (H (list PostOutcome) scripted_post example_key 1000 60
              (start_of_run
                 [Returned {| status_code := 200;
                              text := "<html>Bad Gateway</html>";
                              json := inl "Expecting value: line 1 column 1 (char 0)" |}])
              _ [] eq_refl eq_refl)
    as (err & s' & Hrun).
  vm_compute in Hrun. discriminate Hrun.
Qed.

Example status_200_html_body :
  fst (test_request scripted_post example_key 1000 60
         (start_of_run
            [Returned {| status_code := 200;
                         text := "<html>Bad Gateway</html>";
                         json := inl "Expecting value: line 1 column 1 (char 0)" |}]))
  = Ret (false,
         Some "Unexpected error: JSONDecodeError: Expecting value: line 1 column 1 (char 0)").
Proof. vm_compute. reflexivity. Qed.

Example status_200_empty_choices :
  fst (test_request scripted_post example_key 1000 60
         (start_of_run
            [Returned {| status_code := 200;
                         text := "{'choices': []}";
                         json := inr (JDict [("choices", JList [])]) |}]))
  = Ret (false, Some "Unexpected error: IndexError: list index out of range").
Proof. vm_compute. reflexivity. Qed.

Lemma status_200_verdict_witness :
  test_request scripted_post example_key 1000 60
    (start_of_run [Returned ok_response])
  = (Ret (true, None), {| world := []; trace := [EvProbe 1000 true] |}).
Proof.
  exact (status_200_verdict scripted_post example_key 1000 60
           (start_of_run [Returned ok_response]) ok_response [] eq_refl eq_refl).
Defined.

Lemma failures_are_classified_witness :
  exists detail,
    test_request scripted_post example_key 1000 60
      (start_of_run [Returned too_large_response])
    = (Ret (false, Some ("Status " ++ PyStr.of_int 413 ++ ": " ++ detail)),
       {| world := []; trace := [EvProbe 1000 false] |}) /\
    PyStr.len detail <= 200.
Proof.
  destruct (failures_are_classified scripted_post example_key 1000 60
              (start_of_run [Returned too_large_response])
              (Returned too_large_response) [] eq_refl)
    as (Hstatus & _).
  destruct (Hstatus too_large_response eq_refl ltac:(discriminate))
    as (detail & Hrun & Hlen & _).
  exists detail. split; [exact Hrun | exact Hlen].
Defined.

Lemma test_request_total_witness :
  exists success error_msg s',
    test_request scripted_post example_key 1000 60
      (start_of_run [Raised (ExOther "ConnectError" "All connection attempts failed")])
    = (Ret (success, error_msg), s') /\
    (success = true <-> error_msg = None).
Proof.
  exact (proj1 (test_request_total scripted_post example_key 1000 60
                  (start_of_run
                     [Raised (ExOther "ConnectError" "All connection attempts failed")])
                  eq_refl)).
Defined.

(** An interrupt is no outcome of the transport, and it does leave the
    probe. *)
Example test_request_keyboard_interrupt :
  fst (test_request scripted_post example_key 1000 60
         (start_of_run [Raised (ExBase "KeyboardInterrupt" EmptyString)]))
  = Raise (ExBase "KeyboardInterrupt" EmptyString).
Proof. vm_compute. reflexivity. Qed.

(** ** C1 to C3 and C7 to C9 on examples *)

(** C1, as stated: the bisection does not keep
    [min_len <= limit < max_len]. With the limit at 495000 the first
    probe of phase 2, at 495000, succeeds and [min_len] becomes 495001,
    above the limit. *)
Lemma bisection_loses_straddle :
  ~ bisection_keeps_straddle (threshold_post 495000) no_wait example_key 500.
Proof.
  intros H.
  assert (Hrun : bs_body (threshold_post 495000) no_wait example_key
                   entry_495000 (start_of_run tt)
                 = (Ret {| min_len := 495001; max_len := 500000;
                           last_success := 495000 |},
                    {| world := tt;
                       trace := [EvProbe 495000 true; EvSleep 2] |}))
    by (vm_compute; reflexivity).
  specialize (H 495000 (threshold_monotone example_key 495000 ltac:(lia))
                entry_495000 _ (start_of_run tt) _
                ltac:(simpl; lia) ltac:(unfold straddles; simpl; lia) Hrun).
  unfold straddles in H. simpl in H. lia.
Qed.

(** The upper bound goes the same way: with the limit at 494999 the probe
    at 495000 fails and [max_len] becomes 494999, the limit itself. *)
Example bisection_loses_upper_bound :
  ~ bisection_keeps_straddle (threshold_post 494999) no_wait example_key 500.
Proof.
  intros H.
  assert (Hrun : bs_body (threshold_post 494999) no_wait example_key
                   entry_495000 (start_of_run tt)
                 = (Ret {| min_len := 490000; max_len := 494999;
                           last_success := 490000 |},
                    {| world := tt;
                       trace := [EvProbe 495000 false; EvSleep 2] |}))
    by (vm_compute; reflexivity).
  specialize (H 494999 (threshold_monotone example_key 494999 ltac:(lia))
                entry_495000 _ (start_of_run tt) _
                ltac:(simpl; lia) ltac:(unfold straddles; simpl; lia) Hrun).
  unfold straddles in H. simpl in H. lia.
Qed.

Lemma search_keeps_bounds_witness :
  exists v' s',
    bs_body (threshold_post 495000) no_wait example_key entry_495000
            (start_of_run tt) = (Ret v', s') /\
    bs_inv 495000 v'.
Proof.
  destruct (search_keeps_bounds (threshold_post 495000) no_wait example_key 495000
              (threshold_monotone example_key 495000 ltac:(lia)))
    as (_ & _ & Hentry & Hturn).
  apply Hturn. apply (Hentry 490000 500000). unfold straddles. lia.
Defined.

(** C2, as stated: the bounds do not move to the midpoint. From 490000
    and 500000 the probe at 495000 succeeds when the limit is 497000, and
    [min_len] becomes 495001. *)
Lemma bounds_do_not_move_to_midpoint :
  ~ bounds_move_to_midpoint (threshold_post 497000) no_wait example_key 500.
Proof.
  intros H.
  specialize (H entry_495000
                {| min_len := 495001; max_len := 500000; last_success := 495000 |}
                (start_of_run tt)
                {| world := tt; trace := [EvProbe 495000 true; EvSleep 2] |}
                true).
  assert (Hmin : 495001 = (490000 + 500000) / 2).
  { apply H; [simpl; lia | vm_compute; reflexivity ..]. }
  vm_compute in Hmin. discriminate Hmin.
Qed.

(** And when the limit is 493000 the same probe fails, and [max_len]
    becomes 494999. *)
Example upper_bound_does_not_move_to_midpoint :
  ~ bounds_move_to_midpoint (threshold_post 493000) no_wait example_key 500.
Proof.
  intros H.
  specialize (H entry_495000
                {| min_len := 490000; max_len := 494999; last_success := 490000 |}
                (start_of_run tt)
                {| world := tt; trace := [EvProbe 495000 false; EvSleep 2] |}
                false).
  assert (Hmax : 494999 = (490000 + 500000) / 2).
  { apply H; [simpl; lia | vm_compute; reflexivity ..]. }
  vm_compute in Hmax. discriminate Hmax.
Qed.

Lemma bisection_turn_witness :
  exists success s',
    verdict (fst (test_request (threshold_post 497000) example_key
                    ((490000 + 500000) / 2) 60 (start_of_run tt)))
    = Some success /\
    trace s' = [EvProbe ((490000 + 500000) / 2) success; EvSleep 2] /\
    bs_loop (threshold_post 497000) no_wait example_key 5 500 entry_495000
            (start_of_run tt)
    = bs_loop (threshold_post 497000) no_wait example_key 4 500
        (if success
         then {| min_len := (490000 + 500000) / 2 + 1; max_len := 500000;
                 last_success := (490000 + 500000) / 2 |}
         else {| min_len := 490000; max_len := (490000 + 500000) / 2 - 1;
                 last_success := 490000 |})
        s'.
Proof.
  exact (bisection_turn (threshold_post 497000) no_wait example_key 4 500
           entry_495000 (start_of_run tt)
           (threshold_well_behaved 497000) ltac:(simpl; lia)).
Defined.

Lemma binary_search_terminates_witness :
  exists v s' evs,
    bs_loop (threshold_post 497000) no_wait example_key (Z.to_nat 9500) 500
      entry_495000
      {| world := tt; trace := [EvBinarySearch 490000 500000 500] |}
    = (Ret v, s') /\
    max_len v - min_len v <= 500 /\
    trace s' = EvBinarySearch 490000 500000 500 :: evs /\
    happened (threshold_post 497000) no_wait example_key (start_of_run tt)
      (EvBinarySearch 490000 500000 500 :: evs) s' /\
    last_success v = last_good evs 490000 /\
    binary_search (threshold_post 497000) no_wait example_key (Z.to_nat 9500)
      490000 500000 500 (start_of_run tt)
    = (Ret (last_good evs 490000), s').
Proof.
  exact (binary_search_terminates (threshold_post 497000) no_wait example_key
           (Z.to_nat 9500) 490000 500000 500 (start_of_run tt)
           (threshold_well_behaved 497000) ltac:(lia) ltac:(lia)).
Defined.

(** The run of [binary_search] behind the witness. *)
Example binary_search_497000 :
  binary_search (threshold_post 497000) no_wait example_key 10
    490000 500000 500 (start_of_run tt)
  = (Ret 496875,
     {| world := tt;
        trace := [EvBinarySearch 490000 500000 500;
                  EvProbe 495000 true; EvSleep 2;
                  EvProbe 497500 false; EvSleep 2;
                  EvProbe 496250 true; EvSleep 2;
                  EvProbe 496875 true; EvSleep 2;
                  EvProbe 497187 false; EvSleep 2] |}).
Proof. vm_compute. reflexivity. Qed.

Lemma phase1_descends_witness :
  exists (fuel k : nat) (v : P1Vars) (s' : State unit),
    phase1 (threshold_post 495000) no_wait example_key fuel
      STARTING_LENGTH STEP_SIZE MIN_LENGTH (start_of_run tt) = (Ret v, s') /\
    (forall j : nat, (j < k)%nat ->
       MIN_LENGTH <= STARTING_LENGTH - Z.of_nat j * STEP_SIZE) /\
    ((MIN_LENGTH <= STARTING_LENGTH - Z.of_nat k * STEP_SIZE /\
      trace s' = (descent STARTING_LENGTH STEP_SIZE k
                  ++ [EvProbe (STARTING_LENGTH - Z.of_nat k * STEP_SIZE) true])%list /\
      happened (threshold_post 495000) no_wait example_key (start_of_run tt)
        (descent STARTING_LENGTH STEP_SIZE k
         ++ [EvProbe (STARTING_LENGTH - Z.of_nat k * STEP_SIZE) true]) s' /\
      last_success_length v = Some (STARTING_LENGTH - Z.of_nat k * STEP_SIZE))
     \/
     (STARTING_LENGTH - Z.of_nat k * STEP_SIZE < MIN_LENGTH /\
      trace s' = descent STARTING_LENGTH STEP_SIZE k /\
      happened (threshold_post 495000) no_wait example_key (start_of_run tt)
        (descent STARTING_LENGTH STEP_SIZE k) s' /\
      last_success_length v = None /\
      phase2_entered (descent STARTING_LENGTH STEP_SIZE k) = false /\
      find_char_limit_with (threshold_post 495000) no_wait example_key
        STARTING_LENGTH STEP_SIZE MIN_LENGTH fuel (start_of_run tt)
      = (Ret (AllFailed MIN_LENGTH), s'))).
Proof.
  exact (phase1_descends (threshold_post 495000) no_wait example_key
           STARTING_LENGTH STEP_SIZE MIN_LENGTH (start_of_run tt)
           (threshold_well_behaved 495000) ltac:(reflexivity)).
Defined.

(** The two ends of phase 1 on the constants of the script: a success at
    the second length, and 50 failures down to 10000. *)
Example phase1_495000 :
  phase1 (threshold_post 495000) no_wait example_key 50
    STARTING_LENGTH STEP_SIZE MIN_LENGTH (start_of_run tt)
  = (Ret {| current_length := 490000;
            last_success_length := Some 490000;
            first_failure_length := Some 500000 |},
     {| world := tt;
        trace := [EvProbe 500000 false; EvSleep 2; EvProbe 490000 true] |}).
Proof. vm_compute. reflexivity. Qed.

Example all_lengths_fail :
  let run := find_char_limit (fun _ => false) "TypeError" (fun _ => EmptyString)
               (threshold_post 500) no_wait example_key FileNotFound FileNotFound 50
               (start_of_run tt) in
  fst run = Ret (AllFailed 1000) /\
  trace (snd run) = descent 500000 10000 50 /\
  phase2_entered (trace (snd run)) = false.
Proof. vm_compute. repeat split. Qed.

Lemma first_probe_success_witness :
  find_char_limit (fun _ => false) "TypeError" (fun _ => EmptyString)
    (threshold_post 600000) no_wait example_key FileNotFound FileNotFound 1
    (start_of_run tt)
  = (Ret (Results STARTING_LENGTH None),
     {| world := tt; trace := [EvProbe STARTING_LENGTH true] |}).
Proof.
  refine (proj1 (first_probe_success (threshold_post 600000) no_wait example_key
                   STARTING_LENGTH STEP_SIZE MIN_LENGTH 0 (start_of_run tt)
                   {| world := tt; trace := [EvProbe STARTING_LENGTH true] |}
                   None _ _)).
  - unfold MIN_LENGTH, STARTING_LENGTH. lia.
  - vm_compute. reflexivity.
Defined.

(** C9, on the run where 500000 fails and 490000 works (the limit is
    495000): no sleep follows the probe at 490000, the loop of phase 1 is
    left by [break] before its sleep, and the first probe of
    [binary_search], at 495000, comes right after it. *)
Theorem no_delay_after_the_success_of_phase1 :
  let run := find_char_limit (fun _ => false) "TypeError" (fun _ => EmptyString)
               (threshold_post 495000) no_wait example_key FileNotFound FileNotFound 50
               (start_of_run tt) in
  fst run = Ret (Results 495000 (Some 500000)) /\
  trace (snd run) =
    [EvProbe 500000 false; EvSleep 2;
     EvProbe 490000 true;
     EvBinarySearch 490000 500000 500;
     EvProbe 495000 true; EvSleep 2;
     EvProbe 497500 false; EvSleep 2;
     EvProbe 496250 false; EvSleep 2;
     EvProbe 495625 false; EvSleep 2;
     EvProbe 495312 false; EvSleep 2] /\
  delay_after_every_probe (trace (snd run)) = false /\
  delay_between_probes false (trace (snd run)) = false.
Proof. vm_compute. repeat split. Qed.

(** What the missing sleep costs at an endpoint that refuses a request
    less than 2 seconds after the one before: the true limit is 499000,
    the probe at 495000 is answered 429 and counted as too long, and the
    answer is 494687. *)
Example rate_limit_hit_after_phase1 :
  let run := find_char_limit (fun _ => false) "TypeError" (fun _ => EmptyString)
               (limited_post 499000) limited_wait example_key FileNotFound FileNotFound 50
               (start_of_run {| clock := 0; last_request := None |}) in
  fst run = Ret (Results 494687 (Some 500000)) /\
  trace (snd run) =
    [EvProbe 500000 false; EvSleep 2;
     EvProbe 490000 true;
     EvBinarySearch 490000 500000 500;
     EvProbe 495000 false; EvSleep 2;
     EvProbe 492499 true; EvSleep 2;
     EvProbe 493749 true; EvSleep 2;
     EvProbe 494374 true; EvSleep 2;
     EvProbe 494687 true; EvSleep 2].
Proof. vm_compute. repeat split. Qed.

(** * More of the script *)

(** ** The prompt generator beyond the lengths it is meant for *)

Lemma get_past_end (s : string) (k : nat) :
  (String.length s <= k)%nat -> String.get k s = None.
Proof.
  revert k; induction s as [|a s IH]; intros [|k]; simpl; try reflexivity.
  - lia.
  - intros H. apply IH. lia.
Qed.

(** X1: A negative length is not refused: [length // 37] is negative, so no
    whole cycle is laid down, and [length % 37] lies between 0 and 36, so
    the prompt is the first [length % 37] characters of the cycle. *)
Theorem generate_test_prompt_of_negative (L : Z) :
  L < 0 ->
  generate_test_prompt L = substring 0 (Z.to_nat (L mod 37)) base_text /\
  PyStr.len (generate_test_prompt L) = L mod 37.
Proof.
  intros HL.
  pose proof (Z.mod_pos_bound L 37 ltac:(lia)) as Hm.
  assert (Heq : generate_test_prompt L
                = substring 0 (Z.to_nat (L mod 37)) base_text).
  { unfold generate_test_prompt, PyStr.mul, PyStr.slice_to.
    rewrite base_text_len.
    assert (H : (L mod 37 <? 0) = false) by (apply Z.ltb_ge; lia).
    rewrite H.
    assert (Hq : L / 37 < 0) by (apply Z.div_lt_upper_bound; lia).
    replace (Z.to_nat (L / 37)) with 0%nat by lia. reflexivity. }
  split; [exact Heq|].
  rewrite Heq. unfold PyStr.len. rewrite length_substring0.
  change (String.length base_text) with 37%nat. lia.
Qed.

Lemma generate_test_prompt_of_negative_witness :
  generate_test_prompt (-1) = substring 0 (Z.to_nat ((-1) mod 37)) base_text /\
  PyStr.len (generate_test_prompt (-1)) = (-1) mod 37.
Proof. exact (generate_test_prompt_of_negative (-1) ltac:(lia)). Defined.

(** X2: One more cycle: the prompt of [L + 37] characters is the cycle
    followed by the prompt of [L] characters. *)
Theorem generate_test_prompt_next_cycle (L : Z) :
  0 <= L ->
  generate_test_prompt (L + 37) = base_text ++ generate_test_prompt L.
Proof.
  intros HL.
  rewrite (generate_test_prompt_parts (L + 37)) by lia.
  rewrite (generate_test_prompt_parts L) by lia.
  replace (L + 37) with (L + 1 * 37) by lia.
  rewrite Z.div_add, Z.mod_add by lia.
  assert (Hq : 0 <= L / 37) by (apply Z.div_pos; lia).
  replace (Z.to_nat (L / 37 + 1)) with (S (Z.to_nat (L / 37))) by lia.
  cbn [PyStr.repeat]. now rewrite app_assoc_str.
Qed.

Lemma generate_test_prompt_next_cycle_witness :
  generate_test_prompt (3 + 37) = base_text ++ generate_test_prompt 3.
Proof. exact (generate_test_prompt_next_cycle 3 ltac:(lia)). Defined.

(** X3: The prompts are nested: the prompt of [a] characters is the first [a]
    characters of any longer one, so a longer probe sends what a shorter
    one sent and more. *)
Theorem generate_test_prompt_nested (a b : Z) :
  0 <= a <= b ->
  substring 0 (Z.to_nat a) (generate_test_prompt b) = generate_test_prompt a /\
  prefix (generate_test_prompt a) (generate_test_prompt b) = true.
Proof.
  intros [Ha Hab].
  assert (Heq : substring 0 (Z.to_nat a) (generate_test_prompt b)
                = generate_test_prompt a).
  { apply get_correct. intros k.
    pose proof (generate_test_prompt_length a Ha) as Hla.
    pose proof (generate_test_prompt_length b ltac:(lia)) as Hlb.
    unfold PyStr.len in Hla, Hlb.
    destruct (Nat.lt_ge_cases k (Z.to_nat a)) as [Hlt | Hge].
    - rewrite get_substring0 by exact Hlt.
      rewrite !generate_test_prompt_get by lia. reflexivity.
    - rewrite (get_past_end (generate_test_prompt a)) by lia.
      apply get_past_end. rewrite length_substring0. lia. }
  split; [exact Heq|]. rewrite <- Heq. apply prefix_substring0.
Qed.

Lemma generate_test_prompt_nested_witness :
  substring 0 (Z.to_nat 490000) (generate_test_prompt 500000)
    = generate_test_prompt 490000 /\
  prefix (generate_test_prompt 490000) (generate_test_prompt 500000) = true.
Proof. exact (generate_test_prompt_nested 490000 500000 ltac:(lia)). Defined.

(** ** The probe: when it says yes *)

Section ProbeMore.

Context {W : Type}.
Variable post : W -> Request -> Z -> PostOutcome * W.
Variable API_KEY : string.

Local Abbreviation test_request := (test_request post API_KEY).
Local Abbreviation request_for := (request_for API_KEY).

Lemma except_clauses_never_true (timeout : Z) (e : Exn) (error_msg : option string) :
  except_clauses timeout e <> inr (true, error_msg).
Proof. destruct e; simpl; discriminate. Qed.

(** X4: A success is a 200 and nothing else: when the probe returns [True],
    the [post] returned a response, its status was 200, the first
    choice's content could be read and measured, and the error message is
    [None]. No other status, and no exception, is ever counted as a
    success. *)
Theorem success_means_200 (length timeout : Z) (s : State W)
        (error_msg : option string) :
  fst (test_request length timeout s) = Ret (true, error_msg) ->
  error_msg = None /\
  exists response n,
    fst (post (world s) (request_for length) timeout) = Returned response /\
    status_code response = 200 /\
    response_text_len response = inr n.
Proof.
  unfold test_request.
  destruct (post (world s) (request_for length) timeout) as [outcome w].
  destruct (classify timeout outcome) as [e | [success err]] eqn:Hc;
    simpl; [discriminate|].
  intros [= -> ->].
  destruct outcome as [response | e].
  - destruct (Z.eq_dec (status_code response) 200) as [H200 | Hnot].
    + rewrite classify_200 in Hc by exact H200.
      destruct (response_text_len response) as [e | n] eqn:Hlen.
      * now apply except_clauses_never_true in Hc.
      * injection Hc as <-. split; [reflexivity|].
        exists response, n. repeat split; assumption.
    + rewrite classify_not_200 in Hc by exact Hnot. discriminate Hc.
  - unfold classify in Hc. simpl in Hc.
    now apply except_clauses_never_true in Hc.
Qed.

(** X5: The defaults of the three [get]: a 200 whose body is a JSON object
    with no [choices], or whose first choice is an object with no
    [message], or whose message is an object with no [content], is a
    success; the content read is the empty string. *)
Theorem missing_keys_are_a_success (length timeout : Z) (s : State W)
        (response : Response) (w : W) (items : list (string * Json)) :
  post (world s) (request_for length) timeout = (Returned response, w) ->
  status_code response = 200 ->
  json response = inr (JDict items) ->
  let yes := (Ret (true, None),
              {| world := w; trace := trace s ++ [EvProbe length true] |}) in
  (Py.lookup "choices" items = None ->
   response_text_len response = inr 0 /\ test_request length timeout s = yes) /\
  (forall choice rest,
      Py.lookup "choices" items = Some (JList (JDict choice :: rest)) ->
      Py.lookup "message" choice = None ->
      response_text_len response = inr 0 /\ test_request length timeout s = yes) /\
  (forall choice rest message,
      Py.lookup "choices" items = Some (JList (JDict choice :: rest)) ->
      Py.lookup "message" choice = Some (JDict message) ->
      Py.lookup "content" message = None ->
      response_text_len response = inr 0 /\ test_request length timeout s = yes).
Proof.
  intros Hpost H200 Hjson yes.
  assert (Hyes : response_text_len response = inr 0 ->
                 response_text_len response = inr 0 /\
                 test_request length timeout s = yes).
  { intros Hlen. split; [exact Hlen|].
    apply test_request_classify with (outcome := Returned response);
      [exact Hpost|].
    rewrite classify_200 by exact H200. now rewrite Hlen. }
  split; [|split].
  - intros Hchoices. apply Hyes.
    unfold response_text_len. rewrite Hjson. simpl. now rewrite Hchoices.
  - intros choice rest Hchoices Hmessage. apply Hyes.
    unfold response_text_len. rewrite Hjson. simpl. rewrite Hchoices. simpl.
    now rewrite Hmessage.
  - intros choice rest message Hchoices Hmessage Hcontent. apply Hyes.
    unfold response_text_len. rewrite Hjson. simpl. rewrite Hchoices. simpl.
    rewrite Hmessage. simpl. now rewrite Hcontent.
Qed.

(** X6: The content that is there decides: with a first choice whose message
    has a [content], a 200 is a success when the content is a string, a
    list or an object, and a failure with a [TypeError] message when it is
    [null], a boolean or a number, as [len] has no meaning for them. *)
Theorem content_without_len_is_a_failure (length timeout : Z) (s : State W)
        (response : Response) (w : W)
        (items choice message : list (string * Json)) (rest : list Json)
        (response_text : Json) :
  post (world s) (request_for length) timeout = (Returned response, w) ->
  status_code response = 200 ->
  json response = inr (JDict items) ->
  Py.lookup "choices" items = Some (JList (JDict choice :: rest)) ->
  Py.lookup "message" choice = Some (JDict message) ->
  Py.lookup "content" message = Some response_text ->
  fst (test_request length timeout s) =
    match response_text with
    | JStr _ | JList _ | JDict _ => Ret (true, None)
    | _ => Ret (false,
                Some ("Unexpected error: TypeError: object of type '"
                      ++ Py.type_name response_text ++ "' has no len()"))
    end.
Proof.
  intros Hpost H200 Hjson Hchoices Hmessage Hcontent.
  assert (Hlen : response_text_len response = Py.len response_text).
  { unfold response_text_len. rewrite Hjson. simpl. rewrite Hchoices. simpl.
    rewrite Hmessage. simpl. now rewrite Hcontent. }
  pose proof (classify_200 timeout response H200) as Hc. rewrite Hlen in Hc.
  destruct response_text; simpl in Hc;
    now rewrite (test_request_classify post API_KEY length timeout s
                   (Returned response) w _ _ Hpost Hc).
Qed.

End ProbeMore.

Lemma success_means_200_witness :
  exists response n,
    fst (scripted_post [Returned ok_response] (request_for example_key 1000) 60)
      = Returned response /\
    status_code response = 200 /\
    response_text_len response = inr n.
Proof.
  exact (proj2 (success_means_200 scripted_post example_key 1000 60
                  (start_of_run [Returned ok_response]) None eq_refl)).
Defined.

Lemma missing_keys_are_a_success_witness :
  test_request scripted_post example_key 1000 60
    (start_of_run [Returned {| status_code := 200; text := "{}";
                               json := inr (JDict []) |}])
  = (Ret (true, None), {| world := []; trace := [EvProbe 1000 true] |}).
Proof.
  exact (proj2 (proj1 (missing_keys_are_a_success scripted_post example_key 1000 60
                  (start_of_run [Returned {| status_code := 200; text := "{}";
                                             json := inr (JDict []) |}])
                  _ [] [] eq_refl eq_refl eq_refl) eq_refl)).
Defined.

Lemma content_without_len_is_a_failure_witness :
  fst (test_request scripted_post example_key 1000 60
         (start_of_run
            [Returned {| status_code := 200;
                         text := "{'choices':[{'message':{'content':null}}]}";
                         json := inr (JDict [("choices",
                                   JList [JDict [("message",
                                     JDict [("content", JNull)])]])]) |}]))
  = Ret (false,
         Some "Unexpected error: TypeError: object of type 'NoneType' has no len()").
Proof.
  exact (content_without_len_is_a_failure scripted_post example_key 1000 60
           (start_of_run
              [Returned {| status_code := 200;
                           text := "{'choices':[{'message':{'content':null}}]}";
                           json := inr (JDict [("choices",
                                     JList [JDict [("message",
                                       JDict [("content", JNull)])]])]) |}])
           _ [] _ _ _ [] JNull eq_refl eq_refl eq_refl eq_refl eq_refl eq_refl).
Defined.

(** ** The bisection: where it probes, how often, how close it gets *)

Lemma probed_app (a b : list Event) : probed (a ++ b) = (probed a ++ probed b)%list.
Proof.
  induction a as [|[L ok | secs | lo hi st] a IH]; simpl; [reflexivity | | |];
    now rewrite IH.
Qed.

Lemma probed_descent (start step : Z) (n : nat) :
  List.length (probed (descent start step n)) = n.
Proof.
  revert start; induction n as [|n IH]; intros start; [reflexivity|].
  rewrite descent_S. simpl. now rewrite IH.
Qed.

Section SearchMore.

Context {W : Type}.
Variable post : W -> Request -> Z -> PostOutcome * W.
Variable wait : W -> Z -> W.
Variable API_KEY : string.

Local Abbreviation test_request := (test_request post API_KEY).
Local Abbreviation bs_body := (bs_body post wait API_KEY).
Local Abbreviation bs_loop := (bs_loop post wait API_KEY).
Local Abbreviation binary_search := (binary_search post wait API_KEY).
Local Abbreviation slept := (slept wait).

Lemma well_behaved_probes_return :
  well_behaved post -> probes_return post API_KEY.
Proof.
  intros Hwb length s.
  destruct (test_request_returns post API_KEY length 60 s Hwb)
    as (success & err & w & H).
  now exists success, err, {| world := w;
                             trace := trace s ++ [EvProbe length success] |}.
Qed.

Lemma oracle_probes_return (limit : Z) :
  monotone_oracle post API_KEY limit -> probes_return post API_KEY.
Proof.
  intros Horacle length s.
  destruct (oracle_probe post API_KEY limit length s Horacle) as (err & s1 & H).
  now exists (length <=? limit), err, s1.
Qed.

(** The midpoint of an interval of width 2 or more lies strictly inside,
    and either move leaves less than half of the interval. *)
Lemma bs_mid_inside (v : BsVars) :
  2 <= max_len v - min_len v -> min_len v < bs_mid v < max_len v.
Proof.
  intros Hw. unfold bs_mid.
  pose proof (Z.div_mod (min_len v + max_len v) 2 ltac:(lia)) as Hd.
  pose proof (Z.mod_pos_bound (min_len v + max_len v) 2 ltac:(lia)) as Hm.
  lia.
Qed.

Lemma bs_next_halves (v : BsVars) (success : bool) :
  2 * (max_len (bs_next v success) - min_len (bs_next v success))
    <= max_len v - min_len v - 1.
Proof.
  unfold bs_next, bs_mid.
  pose proof (Z.div_mod (min_len v + max_len v) 2 ltac:(lia)) as Hd.
  pose proof (Z.mod_pos_bound (min_len v + max_len v) 2 ltac:(lia)) as Hm.
  destruct success; cbn [max_len min_len last_success]; lia.
Qed.

(** The run of the loop in full: [n] turns are enough for an interval of
    at most [step * 2 ^ n]; the bounds and the answer stay between [lo]
    and [hi], every probe lies strictly between them and is followed by a
    sleep. *)
Lemma bs_loop_run (step lo hi : Z) :
  probes_return post API_KEY -> 0 < step ->
  forall (n fuel : nat) (v : BsVars) (s : State W),
    (n <= fuel)%nat ->
    max_len v - min_len v <= step * 2 ^ Z.of_nat n ->
    lo <= min_len v -> max_len v <= hi -> lo <= last_success v < hi ->
    exists v' s' evs,
      bs_loop fuel step v s = (Ret v', s') /\
      trace s' = (trace s ++ evs)%list /\
      max_len v' - min_len v' <= step /\
      lo <= min_len v' /\ max_len v' <= hi /\ lo <= last_success v' < hi /\
      last_success v' = last_good evs (last_success v) /\
      Forall (fun length => lo < length < hi) (probed evs) /\
      (List.length (probed evs) <= n)%nat /\
      delay_after_every_probe evs = true.
Proof.
  intros Hret Hstep. induction n as [|n IH]; intros fuel v s Hfuel Hw Hlo Hhi Hlast.
  - exists v, s, []. rewrite bs_loop_exit by (simpl in Hw; lia).
    rewrite app_nil_r. simpl in Hw. simpl. repeat split; try lia. constructor.
  - destruct (Z_le_gt_dec (max_len v - min_len v) step) as [Hle | Hgt].
    + exists v, s, []. rewrite bs_loop_exit by lia.
      rewrite app_nil_r. simpl. repeat split; try lia. constructor.
    + destruct fuel as [|fuel]; [lia|].
      destruct (Hret (bs_mid v) s) as (success & err & s1 & Hprobe).
      pose proof (test_request_trace post API_KEY _ _ _ _ _ _ Hprobe) as Htr1.
      pose proof (bs_body_of_probe post wait API_KEY v s s1 success err Hprobe)
        as Hbody.
      pose proof (bs_mid_inside v ltac:(lia)) as Hmid.
      pose proof (bs_next_halves v success) as Hhalf.
      rewrite Nat2Z.inj_succ, Z.pow_succ_r in Hw by lia.
      destruct (IH fuel (bs_next v success) (slept s1)) as
        (v' & s' & evs & Hloop & Htr & Hexit & Hlo' & Hhi' & Hlast' & Hgood
         & Hin & Hcount & Hdelay).
      { lia. }
      { lia. }
      { unfold bs_next. destruct success; cbn [max_len min_len last_success]; lia. }
      { unfold bs_next. destruct success; cbn [max_len min_len last_success]; lia. }
      { unfold bs_next. destruct success; cbn [max_len min_len last_success]; lia. }
      exists v', s', ([EvProbe (bs_mid v) success; EvSleep 2] ++ evs)%list.
      rewrite (bs_loop_turn post wait API_KEY fuel step v _ s _ Hgt Hbody).
      split; [exact Hloop|]. split.
      { rewrite Htr. simpl. rewrite Htr1, <- !app_assoc. reflexivity. }
      split; [exact Hexit|]. split; [exact Hlo'|]. split; [exact Hhi'|].
      split; [exact Hlast'|]. split.
      { rewrite Hgood. now destruct success. }
      split; [|split].
      * simpl. constructor; [lia | exact Hin].
      * simpl. lia.
      * simpl. exact Hdelay.
Qed.

Lemma binary_search_run (min_len0 max_len0 step hi : Z) (n fuel : nat)
      (s : State W) :
  probes_return post API_KEY -> 0 < step ->
  (n <= fuel)%nat ->
  max_len0 - min_len0 <= step * 2 ^ Z.of_nat n ->
  max_len0 <= hi -> min_len0 < hi ->
  exists v s' evs,
    bs_loop fuel step
      {| min_len := min_len0; max_len := max_len0; last_success := min_len0 |}
      {| world := world s;
         trace := trace s ++ [EvBinarySearch min_len0 max_len0 step] |}
      = (Ret v, s') /\
    binary_search fuel min_len0 max_len0 step s = (Ret (last_success v), s') /\
    trace s' = (trace s ++ EvBinarySearch min_len0 max_len0 step :: evs)%list /\
    max_len v - min_len v <= step /\
    min_len0 <= last_success v < hi /\
    Forall (fun length => min_len0 < length < hi) (probed evs) /\
    (List.length (probed evs) <= n)%nat /\
    delay_after_every_probe evs = true.
Proof.
  intros Hret Hstep Hfuel Hw Hhi Hlt.
  destruct (bs_loop_run step min_len0 hi Hret Hstep n fuel
              {| min_len := min_len0; max_len := max_len0; last_success := min_len0 |}
              {| world := world s;
                 trace := trace s ++ [EvBinarySearch min_len0 max_len0 step] |}
              Hfuel)
    as (v & s' & evs & Hloop & Htr & Hexit & _ & _ & Hlast & _ & Hin & Hcount & Hdelay);
    simpl; try lia.
  exists v, s', evs. split; [exact Hloop|]. split.
  { unfold binary_search, bind, emit. rewrite Hloop. reflexivity. }
  split; [simpl in Htr; now rewrite Htr, <- app_assoc|].
  repeat split; try assumption; lia.
Qed.

(** X7: Whatever the probes answer, [binary_search] probes strictly between
    the two lengths it is given and returns a length from [min_len] up to
    but not including [max_len]: it never probes again a bound it was
    given, and never returns the failing one. *)
Theorem binary_search_stays_inside (min_len0 max_len0 step : Z) (n fuel : nat)
        (s : State W) :
  well_behaved post -> 0 < step -> min_len0 < max_len0 ->
  (n <= fuel)%nat -> max_len0 - min_len0 <= step * 2 ^ Z.of_nat n ->
  exists answer s' evs,
    binary_search fuel min_len0 max_len0 step s = (Ret answer, s') /\
    trace s' = (trace s ++ EvBinarySearch min_len0 max_len0 step :: evs)%list /\
    min_len0 <= answer < max_len0 /\
    Forall (fun length => min_len0 < length < max_len0) (probed evs).
Proof.
  intros Hwb Hstep Hlt Hfuel Hw.
  destruct (binary_search_run min_len0 max_len0 step max_len0 n fuel s
              (well_behaved_probes_return Hwb) Hstep Hfuel Hw ltac:(lia) Hlt)
    as (v & s' & evs & _ & Hrun & Htr & _ & Hlast & Hin & _).
  now exists (last_success v), s', evs.
Qed.

(** X8: The cost of the bisection: an interval of at most [step * 2 ^ n] is
    settled with [n] probes at most, whatever they answer. *)
Theorem binary_search_probe_count (min_len0 max_len0 step : Z) (n fuel : nat)
        (s : State W) :
  well_behaved post -> 0 < step ->
  (n <= fuel)%nat -> max_len0 - min_len0 <= step * 2 ^ Z.of_nat n ->
  exists answer s' evs,
    binary_search fuel min_len0 max_len0 step s = (Ret answer, s') /\
    trace s' = (trace s ++ EvBinarySearch min_len0 max_len0 step :: evs)%list /\
    (List.length (probed evs) <= n)%nat.
Proof.
  intros Hwb Hstep Hfuel Hw.
  destruct (binary_search_run min_len0 max_len0 step (Z.max max_len0 (min_len0 + 1))
              n fuel s (well_behaved_probes_return Hwb) Hstep Hfuel Hw
              ltac:(lia) ltac:(lia))
    as (v & s' & evs & _ & Hrun & Htr & _ & _ & _ & Hcount & _).
  now exists (last_success v), s', evs.
Qed.


(** Any property of the variables that a turn keeps, the loop keeps. *)
Lemma bs_loop_invariant (I : BsVars -> Prop) (step : Z) :
  (forall v s v' s',
      I v -> max_len v - min_len v > step ->
      bs_body v s = (Ret v', s') -> I v') ->
  forall (fuel : nat) (v v' : BsVars) (s s' : State W),
    I v -> bs_loop fuel step v s = (Ret v', s') -> I v'.
Proof.
  intros Hturn. induction fuel as [|fuel IH]; intros v v' s s' Hinv; simpl;
    destruct (Z.gtb_spec (max_len v - min_len v) step) as [Hgt | Hle].
  - discriminate.
  - now intros [= <- _].
  - unfold bind at 1.
    destruct (bs_body v s) as [[v1 | e |] s1] eqn:Hbody; try discriminate.
    apply IH. eapply Hturn; [exact Hinv | lia | exact Hbody].
  - now intros [= <- _].
Qed.

Lemma bs_turn_keeps_tight (limit : Z) (v v' : BsVars) (s s' : State W) :
  monotone_oracle post API_KEY limit ->
  bs_tight limit v -> bs_body v s = (Ret v', s') -> bs_tight limit v'.
Proof.
  intros Horacle (Hlast & Hmax & Hmin) Hbody.
  destruct (oracle_probe post API_KEY limit (bs_mid v) s Horacle)
    as (err & s1 & Hprobe).
  rewrite (bs_body_of_probe post wait API_KEY v s s1 _ err Hprobe) in Hbody.
  injection Hbody as <- _.
  unfold bs_tight, bs_next.
  destruct (Z.leb_spec (bs_mid v) limit); simpl; lia.
Qed.

Lemma binary_search_close (limit min_len0 max_len0 step : Z) (n fuel : nat)
      (s : State W) :
  monotone_oracle post API_KEY limit -> 0 < step ->
  straddles limit min_len0 max_len0 ->
  (n <= fuel)%nat -> max_len0 - min_len0 <= step * 2 ^ Z.of_nat n ->
  exists answer s',
    binary_search fuel min_len0 max_len0 step s = (Ret answer, s') /\
    min_len0 <= answer <= limit /\ limit - answer <= step + 1.
Proof.
  intros Horacle Hstep [Hlo Hhi] Hfuel Hw.
  destruct (binary_search_run min_len0 max_len0 step max_len0 n fuel s
              (oracle_probes_return limit Horacle) Hstep Hfuel Hw
              ltac:(lia) ltac:(lia))
    as (v & s' & evs & Hloop & Hrun & _ & Hexit & Hlast & _).
  apply (bs_loop_invariant (bs_tight limit) step) in Hloop.
  - destruct Hloop as (Hl & Hmax & Hmin).
    exists (last_success v), s'. split; [exact Hrun|]. lia.
  - intros v0 s0 v1 s1 Hinv _ Hbody.
    now apply (bs_turn_keeps_tight limit v0 v1 s0 s1 Horacle).
  - unfold bs_tight. simpl. lia.
Qed.

(** X10: How close the bisection gets: with a true limit between the two
    lengths it is given, [binary_search] returns a length that works and
    that lies at most [step + 1] below the limit. *)
Theorem binary_search_accuracy (limit min_len0 max_len0 step : Z) (n fuel : nat)
        (s : State W) :
  monotone_oracle post API_KEY limit -> 0 < step ->
  straddles limit min_len0 max_len0 ->
  (n <= fuel)%nat -> max_len0 - min_len0 <= step * 2 ^ Z.of_nat n ->
  exists answer s',
    binary_search fuel min_len0 max_len0 step s = (Ret answer, s') /\
    min_len0 <= answer <= limit /\ limit - answer <= step + 1.
Proof.
  intros Horacle Hstep Hstraddle Hfuel Hw.
  destruct (binary_search_close limit min_len0 max_len0 step n fuel s
              Horacle Hstep Hstraddle Hfuel Hw) as (answer & s' & Hrun & Hin & Hclose).
  exists answer, s'. split; [exact Hrun|]. split; [exact Hin | exact Hclose].
Qed.

End SearchMore.

(** ** The whole search at an endpoint with a true limit *)

Lemma lowest_tested_here (c step_size min_length : Z) :
  0 < step_size -> min_length <= c -> c - step_size < min_length ->
  lowest_tested c step_size min_length = c.
Proof.
  intros Hstep Hmin Hnext. unfold lowest_tested.
  rewrite Z.div_small by lia. lia.
Qed.

Lemma lowest_tested_step (c step_size min_length : Z) :
  0 < step_size ->
  lowest_tested (c - step_size) step_size min_length
  = lowest_tested c step_size min_length.
Proof.
  intros Hstep. unfold lowest_tested.
  replace (c - step_size - min_length) with (c - min_length + (-1) * step_size)
    by lia.
  rewrite Z.div_add by lia. ring.
Qed.

Lemma lowest_tested_bounds (c step_size min_length : Z) :
  0 < step_size -> min_length <= c ->
  min_length <= lowest_tested c step_size min_length <= c /\
  lowest_tested c step_size min_length - step_size < min_length.
Proof.
  intros Hstep Hmin. unfold lowest_tested.
  pose proof (Z.div_mod (c - min_length) step_size ltac:(lia)) as Hd.
  pose proof (Z.mod_pos_bound (c - min_length) step_size Hstep) as Hm.
  assert (Hq : 0 <= (c - min_length) / step_size) by (apply Z.div_pos; lia).
  nia.
Qed.

Section OracleRun.

Context {W : Type}.
Variable post : W -> Request -> Z -> PostOutcome * W.
Variable wait : W -> Z -> W.
Variable API_KEY : string.

Local Abbreviation p1_body := (p1_body post wait API_KEY).
Local Abbreviation p1_loop := (p1_loop post wait API_KEY).
Local Abbreviation phase1 := (phase1 post wait API_KEY).
Local Abbreviation binary_search := (binary_search post wait API_KEY).
Local Abbreviation find_char_limit_with := (find_char_limit_with post wait API_KEY).
Local Abbreviation slept := (slept wait).

Lemma p1_loop_exit (fuel : nat) (step_size min_length : Z) (v : P1Vars)
      (s : State W) :
  current_length v < min_length ->
  p1_loop fuel step_size min_length v s = (Ret v, s).
Proof.
  intros H. destruct fuel; simpl;
    (destruct (Z.geb_spec (current_length v) min_length); [lia | reflexivity]).
Qed.

(** Phase 1 under a true limit: it ends with no success exactly when the
    limit is below the last length it can test; otherwise on the highest
    tested length that works, the first failure being one step above when
    there was one. *)
Lemma p1_loop_oracle (limit step_size min_length : Z) :
  monotone_oracle post API_KEY limit -> 0 < step_size ->
  forall (fuel : nat) (v : P1Vars) (s : State W),
    min_length <= current_length v ->
    current_length v - min_length < Z.of_nat fuel * step_size ->
    last_success_length v = None ->
    exists v' s',
      p1_loop fuel step_size min_length v s = (Ret v', s') /\
      ((last_success_length v' = None /\
        limit < lowest_tested (current_length v) step_size min_length)
       \/
       (exists good,
           last_success_length v' = Some good /\
           min_length <= good <= limit /\
           lowest_tested (current_length v) step_size min_length <= good /\
           ((good = current_length v /\
             first_failure_length v' = first_failure_length v)
            \/
            (good < current_length v /\ limit < current_length v /\
             first_failure_length v' = Some (good + step_size) /\
             limit < good + step_size)))).
Proof.
  intros Horacle Hstep. induction fuel as [|fuel IH]; intros v s Hmin Hfuel Hnone.
  - lia.
  - destruct (oracle_probe post API_KEY limit (current_length v) s Horacle)
      as (err & s1 & Hprobe).
    pose proof (p1_body_of_probe post wait API_KEY step_size v s s1 _ err Hprobe)
      as Hbody.
    simpl p1_loop.
    destruct (Z.geb_spec (current_length v) min_length); [|lia].
    unfold bind at 1. rewrite Hbody.
    destruct (Z.leb_spec (current_length v) limit) as [Hle | Hgt].
    + exists (p1_found v), s1. split; [reflexivity|]. right.
      exists (current_length v). split; [reflexivity|]. split; [lia|].
      split; [apply lowest_tested_bounds; lia|]. left. split; reflexivity.
    + cbn [fst snd].
      destruct (Z_lt_ge_dec (current_length v - step_size) min_length)
        as [Hlast | Hmore].
      * exists (p1_next step_size v), (slept s1).
        split; [apply p1_loop_exit; simpl; lia|]. left.
        split; [exact Hnone|]. rewrite lowest_tested_here by lia. lia.
      * destruct (IH (p1_next step_size v) (slept s1))
          as (v' & s' & Hloop & Hcase); [simpl; lia | simpl; lia | exact Hnone |].
        exists v', s'. split; [exact Hloop|].
        cbn [p1_next current_length first_failure_length] in Hcase.
        rewrite lowest_tested_step in Hcase by lia.
        destruct Hcase as [Hnone' | (good & Hgood & Hin & Hlow & Hff)];
          [left; exact Hnone' | right].
        exists good. split; [exact Hgood|]. split; [exact Hin|].
        split; [exact Hlow|]. right.
        destruct Hff as [(-> & Hff) | (Hlt & _ & Hff & Hlim)].
        -- split; [lia|]. split; [lia|]. split; [|lia].
           rewrite Hff. f_equal. lia.
        -- split; [lia|]. split; [lia|]. split; [exact Hff | exact Hlim].
Qed.

(** The report of the search under a true limit, case by case. *)
Lemma find_char_limit_with_oracle (limit starting_length step_size min_length : Z)
      (n fuel : nat) (s : State W) :
  monotone_oracle post API_KEY limit ->
  0 < step_size -> 0 < min_length <= starting_length ->
  starting_length - min_length < Z.of_nat fuel * step_size ->
  (n <= fuel)%nat -> step_size <= 500 * 2 ^ Z.of_nat n ->
  exists report s',
    find_char_limit_with starting_length step_size min_length fuel s
      = (Ret report, s') /\
    ((limit < lowest_tested starting_length step_size min_length /\
      report = AllFailed min_length)
     \/
     (starting_length <= limit /\ report = Results starting_length None)
     \/
     (lowest_tested starting_length step_size min_length <= limit < starting_length /\
      exists answer bad,
        report = Results answer (Some bad) /\
        answer <= limit < bad /\ limit - answer <= 501)).
Proof.
  intros Horacle Hstep [Hpos Hmin] Hfuel Hn Hw.
  destruct (p1_loop_oracle limit step_size min_length Horacle Hstep fuel
              {| current_length := starting_length;
                 last_success_length := None;
                 first_failure_length := None |} s)
    as (v & s1 & Hloop & Hcase); [simpl; lia | simpl; lia | reflexivity |].
  cbn [current_length first_failure_length] in Hcase.
  unfold find_char_limit_with, phase1. unfold bind at 1. rewrite Hloop.
  destruct Hcase as [(Hnone & Hlow) | (good & Hgood & Hin & Hlow & Hff)].
  - rewrite Hnone. eexists _, _. split; [reflexivity|]. left. now split.
  - rewrite Hgood.
    destruct Hff as [(-> & Hff) | (Hlt & Hlim & Hff & Hbad)]; rewrite Hff.
    + eexists _, _. split; [reflexivity|]. right. left. split; [lia | reflexivity].
    + assert (Htruthy : Py.truthy (Some (good + step_size)) && Py.truthy (Some good)
                        = true).
      { unfold Py.truthy.
        destruct (Z.eqb_spec (good + step_size) 0); [lia|].
        destruct (Z.eqb_spec good 0); [lia | reflexivity]. }
      rewrite Htruthy.
      destruct (binary_search_close post wait API_KEY limit good (good + step_size)
                  500 n fuel s1 Horacle ltac:(lia)
                  ltac:(unfold straddles; lia) Hn ltac:(lia))
        as (answer & s2 & Hrun & Hans & Hclose).
      unfold bind. rewrite Hrun.
      assert (Hone : Py.truthy (Some (good + step_size)) = true)
        by (now apply andb_true_iff in Htruthy).
      rewrite Hone.
      eexists _, _. split; [reflexivity|]. right. right. split; [lia|].
      exists answer, (good + step_size). split; [reflexivity|]. lia.
Qed.

(** X11: The search reports that every length failed exactly when the limit
    is below the last length phase 1 tests, which can be as much as a
    step above [min_length]: a limit between [min_length] and that length
    is reported as a failure of all lengths. *)
Theorem all_failed_iff_below_lowest_tested
        (limit starting_length step_size min_length : Z)
        (n fuel : nat) (s : State W) :
  monotone_oracle post API_KEY limit ->
  0 < step_size -> 0 < min_length <= starting_length ->
  starting_length - min_length < Z.of_nat fuel * step_size ->
  (n <= fuel)%nat -> step_size <= 500 * 2 ^ Z.of_nat n ->
  exists report s',
    find_char_limit_with starting_length step_size min_length fuel s
      = (Ret report, s') /\
    (report = AllFailed min_length <->
     limit < lowest_tested starting_length step_size min_length).
Proof.
  intros Horacle Hstep Hmin Hfuel Hn Hw.
  destruct (find_char_limit_with_oracle limit starting_length step_size min_length
              n fuel s Horacle Hstep Hmin Hfuel Hn Hw)
    as (report & s' & Hrun & Hcase).
  exists report, s'. split; [exact Hrun|].
  pose proof (lowest_tested_bounds starting_length step_size min_length Hstep
                ltac:(lia)) as Hb.
  destruct Hcase as [(Hlow & ->) | [(Hhigh & ->) | (Hmid & answer & bad & -> & _)]].
  - split; [intros _; exact Hlow | reflexivity].
  - split; [discriminate | lia].
  - split; [discriminate | lia].
Qed.

(** X12: The search as a whole is right to within 501 characters: when some
    tested length works and the starting length does not, the length
    reported works, the failure reported does not, and the true limit is
    at most 501 above the length reported. *)
Theorem find_char_limit_accuracy
        (limit starting_length step_size min_length : Z)
        (n fuel : nat) (s : State W) :
  monotone_oracle post API_KEY limit ->
  0 < step_size -> 0 < min_length <= starting_length ->
  starting_length - min_length < Z.of_nat fuel * step_size ->
  (n <= fuel)%nat -> step_size <= 500 * 2 ^ Z.of_nat n ->
  lowest_tested starting_length step_size min_length <= limit < starting_length ->
  exists answer bad s',
    find_char_limit_with starting_length step_size min_length fuel s
      = (Ret (Results answer (Some bad)), s') /\
    answer <= limit < bad /\ limit - answer <= 501.
Proof.
  intros Horacle Hstep Hmin Hfuel Hn Hw Hlimit.
  destruct (find_char_limit_with_oracle limit starting_length step_size min_length
              n fuel s Horacle Hstep Hmin Hfuel Hn Hw)
    as (report & s' & Hrun & Hcase).
  destruct Hcase as [(Hlow & _) | [(Hhigh & _) | (_ & answer & bad & -> & Hin & Hclose)]];
    [lia | lia |].
  now exists answer, bad, s'.
Qed.

End OracleRun.

(** ** The shape and the cost of a run, whatever the endpoint answers *)

Section RunShape.

Context {W : Type}.
Variable post : W -> Request -> Z -> PostOutcome * W.
Variable wait : W -> Z -> W.
Variable API_KEY : string.

Local Abbreviation p1_loop := (p1_loop post wait API_KEY).
Local Abbreviation phase1 := (phase1 post wait API_KEY).
Local Abbreviation binary_search := (binary_search post wait API_KEY).
Local Abbreviation find_char_limit_with := (find_char_limit_with post wait API_KEY).

Lemma run_shapes (starting_length step_size min_length : Z) (n fuel : nat)
      (s : State W) :
  well_behaved post ->
  0 < step_size -> 0 < min_length ->
  starting_length - min_length < Z.of_nat fuel * step_size ->
  (n <= fuel)%nat -> step_size <= 500 * 2 ^ Z.of_nat n ->
  exists (report : Report) (s' : State W) (k : nat),
    find_char_limit_with starting_length step_size min_length fuel s
      = (Ret report, s') /\
    (forall j : nat, (j < k)%nat ->
       min_length <= starting_length - Z.of_nat j * step_size) /\
    let good := starting_length - Z.of_nat k * step_size in
    ((good < min_length /\
      report = AllFailed min_length /\
      trace s' = (trace s ++ descent starting_length step_size k)%list)
     \/
     (k = 0%nat /\ min_length <= starting_length /\
      report = Results starting_length None /\
      trace s' = (trace s ++ [EvProbe starting_length true])%list)
     \/
     ((0 < k)%nat /\ min_length <= good /\
      exists (answer : Z) (evs : list Event),
        report = Results answer (Some (good + step_size)) /\
        trace s' = (trace s ++ descent starting_length step_size k
                    ++ [EvProbe good true;
                        EvBinarySearch good (good + step_size) 500]
                    ++ evs)%list /\
        good <= answer < good + step_size /\
        Forall (fun length => good < length < good + step_size) (probed evs) /\
        (List.length (probed evs) <= n)%nat /\
        delay_after_every_probe evs = true /\
        answer = last_good evs good)).
Proof.
  intros Hwb Hstep Hpos Hfuel Hn Hw.
  destruct (p1_loop_descends post wait API_KEY step_size min_length Hwb Hstep fuel
              {| current_length := starting_length;
                 last_success_length := None;
                 first_failure_length := None |} s)
    as (k & v & s1 & Hloop & Hmin & Hff & Hcase); [exact Hfuel|].
  cbn [current_length last_success_length first_failure_length]
    in Hmin, Hff, Hcase.
  unfold find_char_limit_with, phase1. unfold bind at 1. rewrite Hloop.
  destruct Hcase as [(Hk & Htr & Hls) | (Hk & Htr & Hls)]; rewrite Hls.
  - destruct k as [|j].
    + rewrite Hff. exists (Results starting_length None), s1, 0%nat.
      simpl in Hk, Htr. rewrite Z.sub_0_r in Htr.
      split; [simpl; unfold bind, ret; do 3 f_equal; lia|].
      split; [exact Hmin|]. right. left.
      repeat split; [lia | exact Htr].
    + set (good := starting_length - Z.of_nat (S j) * step_size) in *.
      assert (Hbad : starting_length - Z.of_nat j * step_size = good + step_size)
        by (subst good; lia).
      rewrite Hff, Hbad.
      assert (Htruthy : Py.truthy (Some (good + step_size)) && Py.truthy (Some good)
                        = true).
      { unfold Py.truthy.
        destruct (Z.eqb_spec (good + step_size) 0); [lia|].
        destruct (Z.eqb_spec good 0); [lia | reflexivity]. }
      rewrite Htruthy.
      destruct (binary_search_run post wait API_KEY good (good + step_size) 500
                  (good + step_size) n fuel s1
                  (well_behaved_probes_return post API_KEY Hwb)
                  ltac:(lia) Hn ltac:(lia) ltac:(lia) ltac:(lia))
        as (vb & s2 & evs & Hloopb & Hrun & Htr2 & _ & Hans & Hin & Hcount & Hdelay).
      assert (Hlastb : last_success vb = last_good evs good).
      { destruct (bs_loop_happened post wait API_KEY 500 fuel _ _ _ _ Hloopb)
          as (evs2 & Hh2 & Hl2).
        apply happened_trace in Hh2. rewrite Htr2 in Hh2. simpl in Hh2, Hl2.
        rewrite <- app_assoc in Hh2. apply app_inv_head in Hh2.
        injection Hh2 as <-. exact Hl2. }
      unfold bind. rewrite Hrun.
      assert (Hone : Py.truthy (Some (good + step_size)) = true)
        by (now apply andb_true_iff in Htruthy).
      rewrite Hone.
      exists (Results (last_success vb) (Some (good + step_size))), s2, (S j).
      split; [reflexivity|]. split; [exact Hmin|]. right. right.
      split; [lia|]. split; [exact Hk|].
      exists (last_success vb), evs. split; [reflexivity|]. split.
      { rewrite Htr2, Htr. fold good. rewrite <- !app_assoc. reflexivity. }
      repeat split; try assumption; lia.
  - exists (AllFailed min_length), s1, k. split; [reflexivity|].
    split; [exact Hmin|]. left. repeat split; assumption.
Qed.

(** X13: A run has one of three shapes. Every tested length fails, down to the
    last one that is not below [min_length], and the report is that all
    failed. Or the first probe succeeds and the report is
    [starting_length], with no first failure. Or [k >= 1] lengths fail
    and the next one, [good], works: then [binary_search] is entered
    with [good] and the failure one step above it, at the resolution
    500, all its probes lie strictly between the two, and the length
    reported lies from [good] up to one below that failure. In each
    shape the events are those of the run replayed on the environment:
    a length said to fail is a [test_request] that the endpoint failed,
    a length said to work one that it passed. *)
Theorem run_has_three_shapes (starting_length step_size min_length : Z)
        (n fuel : nat) (s : State W) :
  well_behaved post ->
  0 < step_size -> 0 < min_length ->
  starting_length - min_length < Z.of_nat fuel * step_size ->
  (n <= fuel)%nat -> step_size <= 500 * 2 ^ Z.of_nat n ->
  exists (report : Report) (s' : State W) (k : nat),
    find_char_limit_with starting_length step_size min_length fuel s
      = (Ret report, s') /\
    let good := starting_length - Z.of_nat k * step_size in
    ((good < min_length /\
      report = AllFailed min_length /\
      trace s' = (trace s ++ descent starting_length step_size k)%list /\
      happened post wait API_KEY s (descent starting_length step_size k) s')
     \/
     (k = 0%nat /\ min_length <= starting_length /\
      report = Results starting_length None /\
      trace s' = (trace s ++ [EvProbe starting_length true])%list /\
      happened post wait API_KEY s [EvProbe starting_length true] s')
     \/
     ((0 < k)%nat /\ min_length <= good /\
      exists (answer : Z) (evs : list Event),
        report = Results answer (Some (good + step_size)) /\
        trace s' = (trace s ++ descent starting_length step_size k
                    ++ [EvProbe good true;
                        EvBinarySearch good (good + step_size) 500]
                    ++ evs)%list /\
        happened post wait API_KEY s
          (descent starting_length step_size k
           ++ [EvProbe good true; EvBinarySearch good (good + step_size) 500]
           ++ evs) s' /\
        good <= answer < good + step_size /\
        answer = last_good evs good /\
        Forall (fun length => good < length < good + step_size) (probed evs))).
Proof.
  intros Hwb Hstep Hpos Hfuel Hn Hw.
  destruct (run_shapes starting_length step_size min_length n fuel s
              Hwb Hstep Hpos Hfuel Hn Hw)
    as (report & s' & k & Hrun & _ & Hcase).
  destruct (find_char_limit_with_happened post wait API_KEY _ _ _ _ _ _ _ Hrun)
    as (evs' & Hh).
  exists report, s', k. split; [exact Hrun|]. cbv zeta in Hcase |- *.
  destruct Hcase as [(Hk & Hr & Htr) | [(Hk & Hm & Hr & Htr)
                    | (Hk & Hgood & answer & evs & Hr & Htr & Hans & Hin & _ & _ & Hlast)]];
    [left | right; left | right; right].
  - repeat split; try assumption.
    eapply happened_logged; [exact Hh | exact Htr].
  - repeat split; try assumption.
    eapply happened_logged; [exact Hh | exact Htr].
  - split; [exact Hk|]. split; [exact Hgood|]. exists answer, evs.
    split; [exact Hr|]. split; [exact Htr|].
    split; [eapply happened_logged; [exact Hh | exact Htr]|].
    split; [exact Hans|]. split; [exact Hlast | exact Hin].
Qed.

Lemma run_probe_count (starting_length step_size min_length : Z)
      (n fuel : nat) (s : State W) :
  well_behaved post ->
  0 < step_size -> 0 < min_length ->
  starting_length - min_length < Z.of_nat fuel * step_size ->
  (n <= fuel)%nat -> step_size <= 500 * 2 ^ Z.of_nat n ->
  exists (report : Report) (s' : State W) (evs : list Event),
    find_char_limit_with starting_length step_size min_length fuel s
      = (Ret report, s') /\
    trace s' = (trace s ++ evs)%list /\
    Z.of_nat (List.length (probed evs))
      <= Z.max 0 ((starting_length - min_length) / step_size + 1) + Z.of_nat n.
Proof.
  intros Hwb Hstep Hpos Hfuel Hn Hw.
  destruct (run_shapes starting_length step_size min_length n fuel s
              Hwb Hstep Hpos Hfuel Hn Hw)
    as (report & s' & k & Hrun & Hmin & Hcase).
  cbv zeta in Hcase.
  assert (Hk : forall j : nat,
             min_length <= starting_length - Z.of_nat j * step_size ->
             Z.of_nat j <= (starting_length - min_length) / step_size).
  { intros j Hj. apply Z.div_le_lower_bound; lia. }
  destruct Hcase as [(_ & _ & Htr) | [(-> & Hm & _ & Htr)
                    | (Hpos_k & Hgood & answer & evs & _ & Htr & _ & _ & Hcount & _)]].
  - exists report, s', (descent starting_length step_size k).
    split; [exact Hrun|]. split; [exact Htr|]. rewrite probed_descent.
    destruct k as [|j]; [lia|].
    specialize (Hk j (Hmin j ltac:(lia))). lia.
  - exists report, s', [EvProbe starting_length true].
    split; [exact Hrun|]. split; [exact Htr|]. simpl.
    specialize (Hk 0%nat ltac:(lia)). lia.
  - eexists report, s', _. split; [exact Hrun|]. split; [exact Htr|].
    rewrite !probed_app, !List.length_app, probed_descent. simpl.
    specialize (Hk k Hgood). lia.
Qed.

(** X14: The cost of a run: at most one probe per length of the descent, and
    [n] more when [step_size <= 500 * 2 ^ n]. *)
Theorem probe_budget (starting_length step_size min_length : Z)
        (n fuel : nat) (s : State W) :
  well_behaved post ->
  0 < step_size -> 0 < min_length ->
  starting_length - min_length < Z.of_nat fuel * step_size ->
  (n <= fuel)%nat -> step_size <= 500 * 2 ^ Z.of_nat n ->
  exists (report : Report) (s' : State W) (evs : list Event),
    find_char_limit_with starting_length step_size min_length fuel s
      = (Ret report, s') /\
    trace s' = (trace s ++ evs)%list /\
    Z.of_nat (List.length (probed evs))
      <= Z.max 0 ((starting_length - min_length) / step_size + 1) + Z.of_nat n.
Proof.
  intros Hwb Hstep Hpos Hfuel Hn Hw.
  destruct (run_probe_count starting_length step_size min_length n fuel s
              Hwb Hstep Hpos Hfuel Hn Hw) as (report & s' & evs & Hrun & Htr & Hcount).
  exists report, s', evs. split; [exact Hrun|]. split; [exact Htr | exact Hcount].
Qed.

End RunShape.

(** ** [load_config] and the start of the script *)

Section StartupFacts.

Variable float_is_zero : string -> bool.
Variable slice_of_dict_error : string.
Variable str_of_other : Json -> string.
Context {W : Type}.
Variable post : W -> Request -> Z -> PostOutcome * W.
Variable wait : W -> Z -> W.

Local Abbreviation truth := (truth float_is_zero).
Local Abbreviation config_body := (config_body float_is_zero slice_of_dict_error).
Local Abbreviation config_key := (config_key float_is_zero slice_of_dict_error).
Local Abbreviation text_capable := (text_capable float_is_zero).
Local Abbreviation text_models := (text_models float_is_zero).
Local Abbreviation model_check := (model_check float_is_zero).
Local Abbreviation load_config := (load_config float_is_zero slice_of_dict_error).
Local Abbreviation find_char_limit :=
  (find_char_limit float_is_zero slice_of_dict_error str_of_other post wait).

Lemma truth_str (k : string) : k <> EmptyString -> truth (JStr k) = true.
Proof.
  intros Hk. simpl. destruct (String.eqb_spec k EmptyString); [contradiction | reflexivity].
Qed.

(** What [find_char_limit] does once [load_config] has returned a key. *)
Lemma find_char_limit_loaded (key0 : string) (config models : FileRead)
      (key : Json) (check : ModelCheck) (fuel : nat) :
  load_config (JStr key0) config models = inr (key, check) ->
  find_char_limit key0 config models fuel =
    if truth key
    then find_char_limit_with post wait (str_of str_of_other key)
           STARTING_LENGTH STEP_SIZE MIN_LENGTH fuel
    else raise (ExBase "SystemExit" "1").
Proof.
  intros Hload. unfold find_char_limit. rewrite Hload.
  now destruct (truth key).
Qed.

Lemma find_char_limit_crashed (key0 : string) (config models : FileRead)
      (cls : string) (fuel : nat) :
  load_config (JStr key0) config models = inl cls ->
  find_char_limit key0 config models fuel = raise (ExOther cls EmptyString).
Proof. intros Hload. unfold find_char_limit. now rewrite Hload. Qed.

(** [load_config] once the first [try] has left a key. *)
Lemma load_config_after_key (API_KEY key : Json) (config models : FileRead) :
  config_key API_KEY config = inr key ->
  load_config API_KEY config models =
    match model_check models with
    | inr check => inr (key, check)
    | inl cls => inl cls
    end.
Proof.
  intros Hkey. unfold load_config. rewrite Hkey. simpl.
  now destruct (model_check models).
Qed.

(** X16: A key set in the script wins: [config.json] is then not looked into,
    so whatever it holds, well formed or not, the key stays; only a file
    that cannot be opened or read for another reason than its absence
    stops the first [try]. What follows is the model check: when it
    returns, the run is the search with that key; when it raises, that
    exception leaves [find_char_limit]. *)
Theorem set_key_wins (k : string) (config models : FileRead) (fuel : nat) :
  k <> EmptyString ->
  (forall type_name, config <> FileError type_name) ->
  config_key (JStr k) config = inr (JStr k) /\
  load_config (JStr k) config models =
    match model_check models with
    | inr check => inr (JStr k, check)
    | inl cls => inl cls
    end /\
  find_char_limit k config models fuel =
    match model_check models with
    | inr _ => find_char_limit_with post wait k
                 STARTING_LENGTH STEP_SIZE MIN_LENGTH fuel
    | inl cls => raise (ExOther cls EmptyString)
    end.
Proof.
  intros Hk Hfile.
  assert (Hkey : config_key (JStr k) config = inr (JStr k)).
  { unfold config_key, config_body. rewrite (truth_str k Hk).
    destruct config as [| cls | msg | c]; try reflexivity.
    now elim (Hfile cls). }
  pose proof (load_config_after_key (JStr k) (JStr k) config models Hkey) as Hload.
  split; [exact Hkey|]. split; [exact Hload|].
  destruct (model_check models) as [cls | check].
  - now apply find_char_limit_crashed.
  - rewrite (find_char_limit_loaded k config models (JStr k) check fuel Hload).
    now rewrite (truth_str k Hk).
Qed.

(** X17: With no key in the script, the key of the first entry of [api_keys]
    is taken, and that entry only. What follows is the model check: when
    it raises, that exception leaves [find_char_limit]; when it returns,
    the run is the search with the key taken, or [sys.exit(1)] when that
    key is the empty string. *)
Theorem key_comes_from_config (k : string) (items entry : list (string * Json))
        (others : list Json) (models : FileRead) (fuel : nat) :
  Py.lookup "api_keys" items = Some (JList (JDict entry :: others)) ->
  Py.lookup "key" entry = Some (JStr k) ->
  config_key (JStr EmptyString) (FileJson (JDict items)) = inr (JStr k) /\
  find_char_limit EmptyString (FileJson (JDict items)) models fuel =
    match model_check models with
    | inl cls => raise (ExOther cls EmptyString)
    | inr _ =>
        if String.eqb k EmptyString
        then raise (ExBase "SystemExit" "1")
        else find_char_limit_with post wait k
               STARTING_LENGTH STEP_SIZE MIN_LENGTH fuel
    end.
Proof.
  intros Hkeys Hentry.
  assert (Hkey : config_key (JStr EmptyString) (FileJson (JDict items))
                 = inr (JStr k)).
  { unfold config_key, config_body. simpl. rewrite Hkeys. simpl.
    now rewrite Hentry. }
  split; [exact Hkey|].
  pose proof (load_config_after_key (JStr EmptyString) (JStr k)
                (FileJson (JDict items)) models Hkey) as Hload.
  destruct (model_check models) as [cls | check].
  - now apply find_char_limit_crashed.
  - rewrite (find_char_limit_loaded _ _ models (JStr k) check fuel Hload).
    simpl. now destruct (String.eqb k EmptyString).
Qed.

(** X18: With no key in the script and none to be had (no [config.json], one
    that is no JSON, or one whose [api_keys] is missing, empty or
    otherwise false), nothing is sent and the exit code is 1: the script
    stops with [sys.exit(1)] when the model check returns, and with the
    exception of the model check when it raises. *)
Theorem no_key_exits_1 (config models : FileRead) (fuel : nat) (s : State W) :
  (config = FileNotFound \/
   (exists msg, config = FileInvalid msg) \/
   (exists items,
       config = FileJson (JDict items) /\
       truth (match Py.lookup "api_keys" items with
              | Some v => v
              | None => JNull
              end) = false)) ->
  find_char_limit EmptyString config models fuel s
    = (Raise (match model_check models with
              | inr _ => ExBase "SystemExit" "1"
              | inl cls => ExOther cls EmptyString
              end), s) /\
  exit_code (fst (find_char_limit EmptyString config models fuel s)) = Some 1.
Proof.
  intros Hconfig.
  assert (Hkey : config_key (JStr EmptyString) config = inr (JStr EmptyString)).
  { destruct Hconfig as [-> | [(msg & ->) | (items & -> & Hfalse)]];
      try reflexivity.
    unfold config_key, config_body. simpl. now rewrite Hfalse. }
  pose proof (load_config_after_key _ _ config models Hkey) as Hload.
  assert (Hrun : find_char_limit EmptyString config models fuel s
                 = (Raise (match model_check models with
                           | inr _ => ExBase "SystemExit" "1"
                           | inl cls => ExOther cls EmptyString
                           end), s)).
  { destruct (model_check models) as [cls | check].
    - now rewrite (find_char_limit_crashed _ _ _ cls fuel Hload).
    - now rewrite (find_char_limit_loaded _ _ _ _ check fuel Hload). }
  split; [exact Hrun|]. rewrite Hrun.
  now destruct (model_check models).
Qed.

(** X15: The script as it stands, with its constants, at a well-behaved
    endpoint: a run sends 55 probes at most (50 for the descent, 5 for
    the bisection of a bracket of 10000 down to 500). When
    [load_config] returns and leaves a true key, [find_char_limit]
    returns and the exit code is 0, also when the report is that every
    length failed; when [load_config] leaves no key or raises, nothing
    is sent and the exit code is 1. *)
Theorem script_run_is_bounded (key0 : string) (config models : FileRead)
        (s : State W) :
  well_behaved post ->
  exists (result : Outcome Report) (s' : State W) (evs : list Event),
    find_char_limit key0 config models 50 s = (result, s') /\
    trace s' = (trace s ++ evs)%list /\
    (List.length (probed evs) <= 55)%nat /\
    match load_config (JStr key0) config models with
    | inr (key, _) =>
        if truth key
        then (exists report, result = Ret report) /\ exit_code result = Some 0
        else result = Raise (ExBase "SystemExit" "1") /\ evs = [] /\
             exit_code result = Some 1
    | inl cls =>
        result = Raise (ExOther cls EmptyString) /\ evs = [] /\
        exit_code result = Some 1
    end.
Proof.
  intros Hwb.
  destruct (load_config (JStr key0) config models) as [cls | [key check]] eqn:Hload.
  - rewrite (find_char_limit_crashed key0 config models cls 50 Hload).
    exists (Raise (ExOther cls EmptyString)), s, [].
    rewrite app_nil_r. simpl. repeat split; lia.
  - rewrite (find_char_limit_loaded key0 config models key check 50 Hload).
    destruct (truth key).
    + destruct (run_probe_count post wait (str_of str_of_other key)
                  STARTING_LENGTH STEP_SIZE MIN_LENGTH 5 50 s
                  Hwb ltac:(reflexivity) ltac:(reflexivity) ltac:(reflexivity)
                  ltac:(lia) ltac:(vm_compute; discriminate))
        as (report & s' & evs & Hrun & Htr & Hcount).
      exists (Ret report), s', evs.
      split; [exact Hrun|]. split; [exact Htr|]. split.
      * change (Z.max 0 ((STARTING_LENGTH - MIN_LENGTH) / STEP_SIZE + 1)
                + Z.of_nat 5) with 55 in Hcount. lia.
      * split; [now exists report | reflexivity].
    + exists (Raise (ExBase "SystemExit" "1")), s, [].
      rewrite app_nil_r. simpl. repeat split; lia.
Qed.

(** X19: The [except] of the first [try] takes a missing file and a text that
    is no JSON, and nothing that a JSON of the wrong shape raises: with
    no key in the script, a [config.json] that is no object, one whose
    [api_keys] is a number, and one whose first entry has no [key] each
    end the script with an exception, and nothing is sent. *)
Theorem malformed_config_is_fatal (c : Json) (models : FileRead) (fuel : nat)
        (s : State W) :
  let crash cls :=
    config_key (JStr EmptyString) (FileJson c) = inl cls /\
    find_char_limit EmptyString (FileJson c) models fuel s
      = (Raise (ExOther cls EmptyString), s) in
  ((forall items, c <> JDict items) -> crash "AttributeError") /\
  (forall items n,
      c = JDict items -> Py.lookup "api_keys" items = Some (JInt n) -> n <> 0 ->
      crash "TypeError") /\
  (forall items entry others,
      c = JDict items ->
      Py.lookup "api_keys" items = Some (JList (JDict entry :: others)) ->
      Py.lookup "key" entry = None ->
      crash "KeyError").
Proof.
  intros crash.
  assert (Hcrash : forall cls,
             config_key (JStr EmptyString) (FileJson c) = inl cls -> crash cls).
  { intros cls Hkey. split; [exact Hkey|].
    unfold find_char_limit, load_config. rewrite Hkey. reflexivity. }
  split; [|split].
  - intros Hnot. apply Hcrash. unfold config_key, config_body. simpl.
    destruct c; try reflexivity. now elim (Hnot items).
  - intros items n -> Hkeys Hn. apply Hcrash.
    unfold config_key, config_body. simpl. rewrite Hkeys. simpl.
    destruct (Z.eqb_spec n 0); [contradiction | reflexivity].
  - intros items entry others -> Hkeys Hentry. apply Hcrash.
    unfold config_key, config_body. simpl. rewrite Hkeys. simpl.
    now rewrite Hentry.
Qed.

(** X20: The [IndexError] of the [except] clause never comes from the JSON:
    [api_keys] is indexed only when it is true, and a list or a string
    that is true has a first item. *)
Theorem config_never_raises_IndexError (API_KEY c : Json) :
  slice_of_dict_error <> "IndexError" ->
  snd (config_body API_KEY (FileJson c)) <> Some "IndexError".
Proof.
  intros Hslice. unfold config_body.
  destruct (negb (truth API_KEY)); [|discriminate].
  destruct c; simpl; try discriminate.
  destruct (Py.lookup "api_keys" items) as [v|]; simpl; [|discriminate].
  destruct v as [| b | n | lit | [|ch str] | [|x rest] | d]; simpl;
    try discriminate.
  - destruct b; simpl; discriminate.
  - destruct (negb (n =? 0)); simpl; discriminate.
  - destruct (negb (float_is_zero lit)); simpl; discriminate.
  - destruct x; simpl; try discriminate.
    destruct (Py.lookup "key" items0) as [key|]; simpl; [|discriminate].
    destruct key; simpl; try discriminate.
    intros [= H]. now apply Hslice.
  - destruct d; simpl; discriminate.
Qed.

(** X21: A catalogue with no model that puts out text passes the check
    whatever [MODEL] is: the warning needs a model that does. *)
Theorem no_text_model_no_warning (entries : list Json) :
  Forall (fun m => text_capable m = inr false) entries ->
  model_check (FileJson (JList entries)) = inr UsingModel.
Proof.
  intros Hall.
  assert (Htexts : text_models entries = inr []).
  { induction Hall as [|m rest Hm _ IH]; [reflexivity|].
    simpl. rewrite Hm. simpl. now rewrite IH. }
  unfold model_check, models_body. simpl. rewrite Htexts. reflexivity.
Qed.

(** X22: A [models.json] whose top level is an object with a key, and not a
    list, ends the script: the loop runs over the keys, and a string has
    no [get]. *)
Theorem models_object_is_fatal (key : string) (v : Json)
        (rest : list (string * Json)) (API_KEY : Json) (config : FileRead) :
  model_check (FileJson (JDict ((key, v) :: rest))) = inl "AttributeError" /\
  forall new_key,
    config_key API_KEY config = inr new_key ->
    load_config API_KEY config (FileJson (JDict ((key, v) :: rest)))
    = inl "AttributeError".
Proof.
  assert (Hcheck : model_check (FileJson (JDict ((key, v) :: rest)))
                   = inl "AttributeError") by reflexivity.
  split; [exact Hcheck|]. intros new_key Hkey.
  unfold load_config. rewrite Hkey. reflexivity.
Qed.

End StartupFacts.

(** ** The added facts on examples *)

Lemma binary_search_stays_inside_witness :
  exists answer s' evs,
    binary_search (threshold_post 497000) no_wait example_key 5
      490000 500000 500 (start_of_run tt) = (Ret answer, s') /\
    trace s' = EvBinarySearch 490000 500000 500 :: evs /\
    490000 <= answer < 500000 /\
    Forall (fun length => 490000 < length < 500000) (probed evs).
Proof.
  exact (binary_search_stays_inside (threshold_post 497000) no_wait example_key
           490000 500000 500 5 5 (start_of_run tt)
           (threshold_well_behaved 497000) ltac:(lia) ltac:(lia) ltac:(lia)
           ltac:(vm_compute; discriminate)).
Defined.

Lemma binary_search_probe_count_witness :
  exists answer s' evs,
    binary_search (threshold_post 497000) no_wait example_key 5
      490000 500000 500 (start_of_run tt) = (Ret answer, s') /\
    trace s' = EvBinarySearch 490000 500000 500 :: evs /\
    (List.length (probed evs) <= 5)%nat.
Proof.
  exact (binary_search_probe_count (threshold_post 497000) no_wait example_key
           490000 500000 500 5 5 (start_of_run tt)
           (threshold_well_behaved 497000) ltac:(lia) ltac:(lia)
           ltac:(vm_compute; discriminate)).
Defined.


Lemma binary_search_accuracy_witness :
  exists answer s',
    binary_search (threshold_post 497000) no_wait example_key 5
      490000 500000 500 (start_of_run tt) = (Ret answer, s') /\
    490000 <= answer <= 497000 /\ 497000 - answer <= 500 + 1.
Proof.
  exact (binary_search_accuracy (threshold_post 497000) no_wait example_key
           497000 490000 500000 500 5 5 (start_of_run tt)
           (threshold_monotone example_key 497000 ltac:(lia)) ltac:(lia)
           ltac:(unfold straddles; lia) ltac:(lia)
           ltac:(vm_compute; discriminate)).
Defined.

(** A limit of 9999 characters is above [MIN_LENGTH] and below the last
    length the descent tests, 10000: every length fails. *)
Lemma all_failed_iff_below_lowest_tested_witness :
  exists report s',
    find_char_limit_with (threshold_post 9999) no_wait example_key
      STARTING_LENGTH STEP_SIZE MIN_LENGTH 50 (start_of_run tt)
      = (Ret report, s') /\
    (report = AllFailed MIN_LENGTH <->
     9999 < lowest_tested STARTING_LENGTH STEP_SIZE MIN_LENGTH).
Proof.
  exact (all_failed_iff_below_lowest_tested (threshold_post 9999) no_wait
           example_key 9999 STARTING_LENGTH STEP_SIZE MIN_LENGTH 5 50
           (start_of_run tt)
           (threshold_monotone example_key 9999 ltac:(lia))
           ltac:(reflexivity) ltac:(unfold MIN_LENGTH, STARTING_LENGTH; lia)
           ltac:(reflexivity) ltac:(lia) ltac:(vm_compute; discriminate)).
Defined.

Example lowest_tested_of_the_script :
  lowest_tested STARTING_LENGTH STEP_SIZE MIN_LENGTH = 10000.
Proof. reflexivity. Qed.

Lemma find_char_limit_accuracy_witness :
  exists answer bad s',
    find_char_limit_with (threshold_post 123456) no_wait example_key
      STARTING_LENGTH STEP_SIZE MIN_LENGTH 50 (start_of_run tt)
      = (Ret (Results answer (Some bad)), s') /\
    answer <= 123456 < bad /\ 123456 - answer <= 501.
Proof.
  exact (find_char_limit_accuracy (threshold_post 123456) no_wait example_key
           123456 STARTING_LENGTH STEP_SIZE MIN_LENGTH 5 50 (start_of_run tt)
           (threshold_monotone example_key 123456 ltac:(lia))
           ltac:(reflexivity) ltac:(unfold MIN_LENGTH, STARTING_LENGTH; lia)
           ltac:(reflexivity) ltac:(lia) ltac:(vm_compute; discriminate)
           ltac:(vm_compute; split; [discriminate | reflexivity])).
Defined.

Lemma run_has_three_shapes_witness :
  exists (report : Report) (s' : State unit) (k : nat),
    find_char_limit_with (threshold_post 495000) no_wait example_key
      STARTING_LENGTH STEP_SIZE MIN_LENGTH 50 (start_of_run tt)
      = (Ret report, s') /\
    let good := STARTING_LENGTH - Z.of_nat k * STEP_SIZE in
    ((good < MIN_LENGTH /\
      report = AllFailed MIN_LENGTH /\
      trace s' = descent STARTING_LENGTH STEP_SIZE k /\
      happened (threshold_post 495000) no_wait example_key (start_of_run tt)
        (descent STARTING_LENGTH STEP_SIZE k) s')
     \/
     (k = 0%nat /\ MIN_LENGTH <= STARTING_LENGTH /\
      report = Results STARTING_LENGTH None /\
      trace s' = [EvProbe STARTING_LENGTH true] /\
      happened (threshold_post 495000) no_wait example_key (start_of_run tt)
        [EvProbe STARTING_LENGTH true] s')
     \/
     ((0 < k)%nat /\ MIN_LENGTH <= good /\
      exists (answer : Z) (evs : list Event),
        report = Results answer (Some (good + STEP_SIZE)) /\
        trace s' = (descent STARTING_LENGTH STEP_SIZE k
                    ++ [EvProbe good true;
                        EvBinarySearch good (good + STEP_SIZE) 500]
                    ++ evs)%list /\
        happened (threshold_post 495000) no_wait example_key (start_of_run tt)
          (descent STARTING_LENGTH STEP_SIZE k
           ++ [EvProbe good true; EvBinarySearch good (good + STEP_SIZE) 500]
           ++ evs) s' /\
        good <= answer < good + STEP_SIZE /\
        answer = last_good evs good /\
        Forall (fun length => good < length < good + STEP_SIZE) (probed evs))).
Proof.
  exact (run_has_three_shapes (threshold_post 495000) no_wait example_key
           STARTING_LENGTH STEP_SIZE MIN_LENGTH 5 50 (start_of_run tt)
           (threshold_well_behaved 495000)
           ltac:(reflexivity) ltac:(reflexivity) ltac:(reflexivity)
           ltac:(lia) ltac:(vm_compute; discriminate)).
Defined.

Lemma probe_budget_witness :
  exists (report : Report) (s' : State unit) (evs : list Event),
    find_char_limit_with (threshold_post 495000) no_wait example_key
      STARTING_LENGTH STEP_SIZE MIN_LENGTH 50 (start_of_run tt)
      = (Ret report, s') /\
    trace s' = evs /\
    Z.of_nat (List.length (probed evs))
      <= Z.max 0 ((STARTING_LENGTH - MIN_LENGTH) / STEP_SIZE + 1) + Z.of_nat 5.
Proof.
  exact (probe_budget (threshold_post 495000) no_wait example_key
           STARTING_LENGTH STEP_SIZE MIN_LENGTH 5 50 (start_of_run tt)
           (threshold_well_behaved 495000)
           ltac:(reflexivity) ltac:(reflexivity) ltac:(reflexivity)
           ltac:(lia) ltac:(vm_compute; discriminate)).
Defined.

Lemma script_run_is_bounded_witness :
  exists (result : Outcome Report) (s' : State unit) (evs : list Event),
    find_char_limit (fun _ => false) "TypeError" (fun _ => EmptyString)
      (threshold_post 495000) no_wait example_key FileNotFound FileNotFound 50
      (start_of_run tt) = (result, s') /\
    trace s' = evs /\
    (List.length (probed evs) <= 55)%nat /\
    (exists report, result = Ret report) /\ exit_code result = Some 0.
Proof.
  exact (script_run_is_bounded (fun _ => false) "TypeError" (fun _ => EmptyString)
           (threshold_post 495000) no_wait example_key FileNotFound FileNotFound
           (start_of_run tt) (threshold_well_behaved 495000)).
Defined.

Lemma set_key_wins_witness :
  config_key (fun _ => false) "TypeError" (JStr example_key) (FileJson (JList []))
    = inr (JStr example_key) /\
  load_config (fun _ => false) "TypeError" (JStr example_key)
    (FileJson (JList [])) FileNotFound
    = inr (JStr example_key, CouldNotLoadModels).
Proof.
  destruct (set_key_wins (fun _ => false) "TypeError" (fun _ => EmptyString)
              (threshold_post 495000) no_wait example_key
              (FileJson (JList [])) FileNotFound 50
              ltac:(discriminate) ltac:(discriminate)) as (Hkey & Hload & _).
  split; [exact Hkey | exact Hload].
Defined.

Lemma key_comes_from_config_witness :
  config_key (fun _ => false) "TypeError" (JStr EmptyString)
    (FileJson (JDict [("api_keys",
                 JList [JDict [("name", JStr "first"); ("key", JStr "sk-one")];
                        JDict [("key", JStr "sk-two")]])]))
  = inr (JStr "sk-one").
Proof.
  exact (proj1 (key_comes_from_config (fun _ => false) "TypeError" (fun _ => EmptyString) (threshold_post 495000) no_wait
                  "sk-one"
                  [("api_keys",
                    JList [JDict [("name", JStr "first"); ("key", JStr "sk-one")];
                           JDict [("key", JStr "sk-two")]])]
                  [("name", JStr "first"); ("key", JStr "sk-one")]
                  [JDict [("key", JStr "sk-two")]]
                  FileNotFound 50
                  eq_refl eq_refl)).
Defined.

Lemma no_key_exits_1_witness :
  find_char_limit (fun _ => false) "TypeError" (fun _ => EmptyString)
    (threshold_post 495000) no_wait EmptyString
    (FileJson (JDict [("api_keys", JList [])])) FileNotFound 50 (start_of_run tt)
  = (Raise (ExBase "SystemExit" "1"), start_of_run tt).
Proof.
  exact (proj1 (no_key_exits_1 (fun _ => false) "TypeError" (fun _ => EmptyString)
                  (threshold_post 495000) no_wait
                  (FileJson (JDict [("api_keys", JList [])])) FileNotFound
                  50 (start_of_run tt)
                  (or_intror (or_intror
                     (ex_intro _ [("api_keys", JList [])] (conj eq_refl eq_refl)))))).
Defined.

(** The same with a [models.json] that is an object: the exception of
    the model check is what ends the script, still with the code 1. *)
Example no_key_and_models_object :
  let run := find_char_limit (fun _ => false) "TypeError" (fun _ => EmptyString)
               (threshold_post 495000) no_wait EmptyString
               FileNotFound (FileJson (JDict [("models", JList [])])) 50
               (start_of_run tt) in
  run = (Raise (ExOther "AttributeError" EmptyString), start_of_run tt) /\
  exit_code (fst run) = Some 1.
Proof. vm_compute. split; reflexivity. Qed.

Lemma malformed_config_is_fatal_witness :
  config_key (fun _ => false) "TypeError" (JStr EmptyString)
    (FileJson (JDict [("api_keys", JList [JDict [("name", JStr "first")]])]))
  = inl "KeyError".
Proof.
  exact (proj1 (proj2 (proj2 (malformed_config_is_fatal (fun _ => false) "TypeError"
                  (fun _ => EmptyString) (threshold_post 495000) no_wait
                  (JDict [("api_keys", JList [JDict [("name", JStr "first")]])])
                  FileNotFound 50 (start_of_run tt)))
                  [("api_keys", JList [JDict [("name", JStr "first")]])]
                  [("name", JStr "first")] [] eq_refl eq_refl eq_refl)).
Defined.

Lemma config_never_raises_IndexError_witness :
  snd (config_body (fun _ => false) "TypeError" (JStr EmptyString)
         (FileJson (JDict [("api_keys", JStr "x")])))
  <> Some "IndexError".
Proof.
  exact (config_never_raises_IndexError (fun _ => false) "TypeError"
           (JStr EmptyString) (JDict [("api_keys", JStr "x")])
           ltac:(discriminate)).
Defined.

Lemma no_text_model_no_warning_witness :
  model_check (fun _ => false)
    (FileJson (JList [JDict [("publicName", JStr "image-model");
                             ("capabilities",
                              JDict [("outputCapabilities",
                                      JDict [("image", JBool true)])])]]))
  = inr UsingModel.
Proof.
  apply (no_text_model_no_warning (fun _ => false)).
  constructor; [reflexivity | constructor].
Defined.

Lemma models_object_is_fatal_witness :
  load_config (fun _ => false) "TypeError" (JStr example_key) FileNotFound
    (FileJson (JDict [("models", JList [])]))
  = inl "AttributeError".
Proof.
  exact (proj2 (models_object_is_fatal (fun _ => false) "TypeError"
                  "models" (JList []) [] (JStr example_key) FileNotFound)
               (JStr example_key) eq_refl).
Defined.
